(** * Parent portal: time labels, contact lookup, hours balance, session aggregation

    A shallow embedding of [routes.py] (and of the dashboard partition of
    [main.py]).  Python values are an inductive type, dicts are finite maps
    with string keys, exceptions are values of an error monad, and the
    relational store, the clock and the two library parsers the code calls
    ([dateutil.parser.parse], the string case of [float]) are fields of an
    explicit environment.

    Strings: a Python [str] is modelled by [string]; every character is a
    code point below 256. *)

From Stdlib Require Import ZArith String Ascii List Floats Lia Permutation.
From stdpp Require Import gmap strings list fin_maps.

#[local] Set Warnings "-register-all".
#[local] Open Scope Z_scope.

(** ** Python values *)

Module Py.

Record date := Date { year : Z; month : Z; day : Z }.

(** Time of day, as in [datetime.time] and in the time part of a
    [datetime.datetime]. *)
Record clock := Clock { hour : Z; minute : Z; second : Z; microsecond : Z }.

Inductive pyval :=
| PNone
| PBool (b : bool)
| PInt (z : Z)
| PFloat (f : float)
| PStr (s : string)
| PDateTime (d : date) (t : clock)   (* datetime.datetime *)
| PDate (d : date)                   (* datetime.date that is not a datetime *)
| PList (l : list pyval)
| PDict (m : gmap string pyval).

Abbreviation pydict := (gmap string pyval).

(** The exception classes the code can meet; all derive from [Exception]. *)
Inductive exn :=
| ValueError
| TypeError
| AttributeError
| OverflowError
| KeyError (key : string)
| DatabaseError.

Inductive result (A : Type) :=
| Ok (a : A)
| Raise (e : exn).
Arguments Ok {A} a.
Arguments Raise {A} e.

#[export] Instance result_ret : MRet result := fun A a => Ok a.
#[export] Instance result_bind : MBind result := fun A B f r =>
  match r with
  | Ok a => f a
  | Raise e => Raise e
  end.

(** [bool(v)] *)
Definition truthy (v : pyval) : bool :=
  match v with
  | PNone => false
  | PBool b => b
  | PInt z => negb (z =? 0)
  | PFloat f => negb (PrimFloat.eqb f 0%float)
  | PStr s => negb (String.eqb s "")
  | PDateTime _ _ => true
  | PDate _ => true
  | PList l => match l with [] => false | _ => true end
  | PDict m => negb (bool_decide (dom m = ∅))
  end.

(** [d.get(k)] with the default [None] *)
Definition dict_get (d : pydict) (k : string) : pyval :=
  match d !! k with
  | Some v => v
  | None => PNone
  end.

(** [d[k]] *)
Definition getitem (d : pydict) (k : string) : result pyval :=
  match d !! k with
  | Some v => Ok v
  | None => Raise (KeyError k)
  end.

(** [dict(zip(columns, row))]: pairs up to the shorter list, inserted from
    left to right, so a later duplicate of a column name overwrites an
    earlier one. *)
Definition dict_zip (columns : list string) (row : list pyval) : pydict :=
  fold_left (fun d cv => <[cv.1 := cv.2]> d) (combine columns row) ∅.

(** *** Strings *)

Definition code (c : ascii) : Z := Z.of_N (N_of_ascii c).

(** [str.isspace] on one character below 256: TAB, LF, VT, FF, CR, the four
    separators 0x1c..0x1f, space, NEL and the no-break space. *)
Definition is_space (c : ascii) : bool :=
  let n := code c in
  ((9 <=? n) && (n <=? 13)) || ((28 <=? n) && (n <=? 32))
  || (n =? 133) || (n =? 160).

Fixpoint lstrip_by (p : ascii -> bool) (s : string) : string :=
  match s with
  | String c r => if p c then lstrip_by p r else s
  | EmptyString => EmptyString
  end.

Fixpoint rev_string (s acc : string) : string :=
  match s with
  | String c r => rev_string r (String c acc)
  | EmptyString => acc
  end.

Definition rstrip_by (p : ascii -> bool) (s : string) : string :=
  rev_string (lstrip_by p (rev_string s "")) "".

(** [s.strip()] *)
Definition strip (s : string) : string := rstrip_by is_space (lstrip_by is_space s).

(** [s.lstrip("0")] *)
Definition lstrip_zero (s : string) : string :=
  lstrip_by (fun c => Ascii.eqb c "0"%char) s.

(** [v.strip()]: only [str] has the method among the modelled values. *)
Definition call_strip (v : pyval) : result string :=
  match v with
  | PStr s => Ok (strip s)
  | _ => Raise AttributeError
  end.

Definition digit_char (z : Z) : ascii := ascii_of_N (Z.to_N (48 + z mod 10)).

(** ["%02d"] for 0..99 *)
Definition pad2 (z : Z) : string :=
  String (digit_char (z / 10)) (String (digit_char z) "").

(** ["%04d"] for 0..9999 *)
Definition pad4 (z : Z) : string := pad2 (z / 100) +:+ pad2 (z mod 100).

(** ["%06d"] for 0..999999 *)
Definition pad6 (z : Z) : string := pad2 (z / 10000) +:+ pad4 (z mod 10000).

(** *** Numbers *)

(** [float(n)] for an [int]: rounded to nearest even; [None] when the
    rounded value is not finite (CPython raises [OverflowError]). *)
Definition int_to_float (z : Z) : option float :=
  match binary_normalize 53 1024 z 0 false with
  | S754_infinity _ => None
  | S754_nan => None
  | f => Some (SF2Prim f)
  end.

End Py.
Export Py.

(** ** Calendar arithmetic of [datetime.date] *)

Module Calendar.

Definition is_leap (y : Z) : bool :=
  (y mod 4 =? 0) && (negb (y mod 100 =? 0) || (y mod 400 =? 0)).

Definition days_before_year (y : Z) : Z :=
  let p := y - 1 in p * 365 + p / 4 - p / 100 + p / 400.

Definition days_before_month (y m : Z) : Z :=
  nth (Z.to_nat m) [0; 0; 31; 59; 90; 120; 151; 181; 212; 243; 273; 304; 334] 0
  + (if (2 <? m) && is_leap y then 1 else 0).

Definition toordinal (d : date) : Z :=
  days_before_year (year d) + days_before_month (year d) (month d) + day d.

(** [d.weekday()], Monday is 0 *)
Definition weekday (d : date) : Z := (toordinal d + 6) mod 7.

(** [d.strftime("%A")] in the C locale *)
Definition weekday_name (d : date) : string :=
  nth (Z.to_nat (weekday d))
    ["Monday"; "Tuesday"; "Wednesday"; "Thursday"; "Friday"; "Saturday"; "Sunday"]
    "".

(** [d.strftime("%Y-%m-%d")], for a year of four digits *)
Definition strftime_ymd (d : date) : string :=
  pad4 (year d) +:+ "-" +:+ pad2 (month d) +:+ "-" +:+ pad2 (day d).

(** [a < b] on dates *)
Definition date_ltb (a b : date) : bool :=
  (year a <? year b)
  || ((year a =? year b)
      && ((month a <? month b) || ((month a =? month b) && (day a <? day b)))).

End Calendar.
Export Calendar.

(** ** [datetime.strptime(s, "%H:%M:%S")] and [strftime("%I:%M %p")] *)

Module TimeFormat.

Definition is_digit_in (lo hi : Z) (c : ascii) : bool :=
  (48 + lo <=? code c) && (code c <=? 48 + hi).

Definition digit_val (c : ascii) : Z := code c - 48.

(** One alternative of a directive's regular expression: it consumes a
    prefix and yields the number read, or does not match. *)
Definition alternative := string -> option (Z * string).

(** Two digits, the first in [lo1..hi1], the second in [lo2..hi2]. *)
Definition two_digits (lo1 hi1 lo2 hi2 : Z) : alternative := fun s =>
  match s with
  | String a (String b r) =>
      if is_digit_in lo1 hi1 a && is_digit_in lo2 hi2 b
      then Some (10 * digit_val a + digit_val b, r)
      else None
  | _ => None
  end.

Definition one_digit : alternative := fun s =>
  match s with
  | String a r => if is_digit_in 0 9 a then Some (digit_val a, r) else None
  | EmptyString => None
  end.

(** [%H] is [2[0-3]|[0-1]\d|\d], [%M] is [[0-5]\d|\d], [%S] is
    [6[0-1]|[0-5]\d|\d]. *)
Definition directive_H : list alternative :=
  [two_digits 2 2 0 3; two_digits 0 1 0 9; one_digit].
Definition directive_M : list alternative :=
  [two_digits 0 5 0 9; one_digit].
Definition directive_S : list alternative :=
  [two_digits 6 6 0 1; two_digits 0 5 0 9; one_digit].

(** Ordered alternation with backtracking: the first alternative after which
    the rest of the pattern [k] matches wins. *)
Fixpoint alternation {A} (alts : list alternative) (k : Z -> string -> option A)
    (s : string) : option A :=
  match alts with
  | [] => None
  | a :: rest =>
      match a s with
      | Some (v, s') =>
          match k v s' with
          | Some r => Some r
          | None => alternation rest k s
          end
      | None => alternation rest k s
      end
  end.

Definition literal {A} (c : ascii) (k : string -> option A) (s : string) : option A :=
  match s with
  | String a r => if Ascii.eqb a c then k r else None
  | EmptyString => None
  end.

(** [re.match] of the compiled format: the fields and the unmatched rest. *)
Definition match_HMS (s : string) : option (Z * Z * Z * string) :=
  alternation directive_H (fun h =>
    literal ":" (alternation directive_M (fun m =>
      literal ":" (alternation directive_S (fun sec rest =>
        Some (h, m, sec, rest)))))) s.

(** [ValueError] when the string does not match, when data remains after
    the match, or when the seconds read are 60 or 61, which [datetime]
    refuses. *)
Definition strptime_HMS (s : string) : result clock :=
  match match_HMS s with
  | None => Raise ValueError
  | Some (h, m, sec, rest) =>
      if negb (String.eqb rest "") then Raise ValueError
      else if 59 <? sec then Raise ValueError
      else Ok (Clock h m sec 0)
  end.

(** [t.strftime("%I:%M %p")] in the C locale *)
Definition strftime_I_M_p (t : clock) : string :=
  let h12 := if hour t mod 12 =? 0 then 12 else hour t mod 12 in
  pad2 h12 +:+ ":" +:+ pad2 (minute t) +:+ " "
  +:+ (if hour t <? 12 then "AM" else "PM").

(** [str(t)] for a [datetime.time] *)
Definition clock_isoformat (t : clock) : string :=
  pad2 (hour t) +:+ ":" +:+ pad2 (minute t) +:+ ":" +:+ pad2 (second t)
  +:+ (if microsecond t =? 0 then "" else "." +:+ pad6 (microsecond t)).

End TimeFormat.
Export TimeFormat.

(** ** The world outside the process: store, clock, library parsers *)

Module World.

(** The column [tblTimes.Time] as the driver hands it over: NULL, a string
    such as ['13:00:00'], or a [datetime.time]. *)
Inductive sql_time :=
| TimeNull
| TimeStr (s : string)
| TimeObj (t : clock).

Record time_row := TimeRow { time_ID : Z; time_Time : sql_time }.

Record inquiry_row := InquiryRow {
  inquiry_ID : Z;
  inquiry_Email : pyval;
  inquiry_ContactPhone : pyval }.

Record student_row := StudentRow {
  student_ID : Z;
  student_FirstName : pyval;
  student_LastName : pyval;
  student_InquiryID : option Z }.

Record schedule_row := ScheduleRow {
  schedule_Day : pyval;
  schedule_TimeID : pyval;
  schedule_ScheduleDate : pyval;
  schedule_StudentId1 : option Z }.

(** The four SELECT statements of [routes.py], and the fifth of
    [search_student]. *)
Inductive statement :=
| SelectTime
| SelectInquiry
| SelectStudents
| SelectSessions
| SelectStudentsOfParent.

(** What the driver answers, call by call, while [get_hours_balance] talks
    to the stored procedure through one raw connection and one cursor.
    [description] is the list of column names, [None] when the cursor has
    no result set. *)
Record cursor_run := CursorRun {
  raw_connection : result unit;
  cursor : result unit;
  callproc : result unit;
  nextset_1 : result bool;
  fetchone : result (option (list pyval));
  description_1 : option (list string);
  nextset_2 : result bool;
  fetchall : result (list (list pyval));
  description_2 : option (list string);
  cursor_close : result unit;
  conn_close : result unit }.

Record world := World {
  tblTimes : list time_row;
  tblInquiry : list inquiry_row;
  tblstudents : list student_row;
  tblSessionSchedule : list schedule_row;
  (** [engine.connect()] and [conn.execute] of a statement: the store may
      refuse it. *)
  engine_execute : statement -> result unit;
  (** the store's [=] on [ContactPhone], which depends on its collation *)
  contact_phone_eq : string -> string -> bool;
  (** [USP_Report_AccountBalance] called with an inquiry identifier *)
  USP_Report_AccountBalance : pyval -> cursor_run;
  (** [datetime.now()] *)
  now : date * clock;
  (** [dateutil.parser.parse]; [None] when it raises *)
  dateutil_parse : string -> option (date * clock);
  (** [float(s)] for a string; [None] is [ValueError] *)
  float_of_str : string -> option float }.

(** A key bound to a statement parameter.  The keys the portal passes are
    integers read back from the store (or [None]); the driver refuses a
    value of another type. *)
Definition bind_key (p : pyval) : result (option Z) :=
  match p with
  | PInt z => Ok (Some z)
  | PBool b => Ok (Some (Z.b2z b))
  | PNone => Ok None
  | _ => Raise DatabaseError
  end.

(** [column = :parameter] on a nullable integer column *)
Definition key_eq (column parameter : option Z) : bool :=
  match column, parameter with
  | Some c, Some p => c =? p
  | _, _ => false
  end.

(** [dict(row._mapping)] for the three row shapes the code turns into
    dicts. *)
Definition of_key (k : option Z) : pyval :=
  match k with
  | Some z => PInt z
  | None => PNone
  end.

Definition inquiry_dict (r : inquiry_row) : pydict :=
  <["InquiryID" := PInt (inquiry_ID r)]>
  (<["Email" := inquiry_Email r]>
  (<["ContactPhone" := inquiry_ContactPhone r]> ∅)).

Definition student_dict (r : student_row) : pydict :=
  <["ID" := PInt (student_ID r)]>
  (<["FirstName" := student_FirstName r]>
  (<["LastName" := student_LastName r]> ∅)).

Definition schedule_dict (r : schedule_row) : pydict :=
  <["Day" := schedule_Day r]>
  (<["TimeID" := schedule_TimeID r]>
  (<["ScheduleDate" := schedule_ScheduleDate r]>
  (<["StudentId1" := of_key (schedule_StudentId1 r)]> ∅))).

End World.
Export World.

(** ** [routes.py] *)

Module Routes.

(** *** [get_time] *)

(** [bool(result.Time)]: NULL and the empty string are false, a
    [datetime.time] is always true. *)
Definition time_truthy (t : sql_time) : bool :=
  match t with
  | TimeNull => false
  | TimeStr s => negb (String.eqb s "")
  | TimeObj _ => true
  end.

(** [str(result.Time)] of a true value *)
Definition time_str (t : sql_time) : string :=
  match t with
  | TimeNull => "None"
  | TimeStr s => s
  | TimeObj c => clock_isoformat c
  end.

(** [SELECT Time FROM tblTimes WHERE ID = :tid], then [fetchone()] *)
Definition select_time (W : world) (tid : pyval) : result (option sql_time) :=
  engine_execute W SelectTime;;
  key ← bind_key tid;
  Ok (time_Time <$> head (List.filter (fun r => key_eq (Some (time_ID r)) key) (tblTimes W))).

Definition get_time (W : world) (time_id : pyval) : result pyval :=
  result ← select_time W time_id;
  match result with
  | Some t =>
      if time_truthy t then
        time_obj ← strptime_HMS (time_str t);
        let formatted_time := lstrip_zero (strftime_I_M_p time_obj) in
        Ok (PStr formatted_time)
      else Ok PNone
  | None => Ok PNone
  end.

(** *** [find_inquiry_by_contact_phone] *)

(** [ContactPhone = :cn] *)
Definition phone_matches (W : world) (contact_num : string) (r : inquiry_row) : bool :=
  match inquiry_ContactPhone r with
  | PStr p => contact_phone_eq W p contact_num
  | _ => false
  end.

(** [None] when no parent row is found, else the dict of the parent and of
    its students. *)
Definition find_inquiry_by_contact_phone (W : world) (contact_num : string)
    : result pyval :=
  engine_execute W SelectInquiry;;
  let parent_result := head (List.filter (phone_matches W contact_num) (tblInquiry W)) in
  match parent_result with
  | None => Ok PNone
  | Some parent =>
      let inquiry_id := inquiry_ID parent in
      engine_execute W SelectStudents;;
      let student_results :=
        List.filter (fun s => key_eq (student_InquiryID s) (Some inquiry_id))
          (tblstudents W) in
      Ok (PDict (<["inquiry" := PDict (inquiry_dict parent)]>
                (<["students" := PList ((fun s => PDict (student_dict s)) <$> student_results)]>
                 ∅)))
  end.

(** *** [get_hours_balance] *)

(** [float(val)] *)
Definition py_float (W : world) (val : pyval) : result float :=
  match val with
  | PBool b => Ok (if b then 1%float else 0%float)
  | PInt z =>
      match int_to_float z with
      | Some f => Ok f
      | None => Raise OverflowError
      end
  | PFloat f => Ok f
  | PStr s =>
      match float_of_str W s with
      | Some f => Ok f
      | None => Raise ValueError
      end
  | _ => Raise TypeError
  end.

(** The local helper: [TypeError] and [ValueError] give 0.0, any other
    exception passes. *)
Definition safe_float (W : world) (val : pyval) : result float :=
  match (match val with PNone => Ok 0%float | _ => py_float W val end) with
  | Ok r => Ok r
  | Raise TypeError => Ok 0%float
  | Raise ValueError => Ok 0%float
  | Raise e => Raise e
  end.

Definition column_names (description : option (list string)) : list string :=
  match description with
  | Some columns => columns
  | None => []
  end.

(** The dict the [except] clause returns. *)
Definition empty_balance : pydict :=
  <["balance" := PDict ∅]>
  (<["extra" := PList []]>
  (<["remaining_hours" := PFloat 0%float]> ∅)).

(** The body of the [try], from [conn.cursor()] to the [return]. *)
Definition balance_try (W : world) (run : cursor_run) : result pydict :=
  cursor run;;
  callproc run;;
  nextset_1 run;;
  balance_row ← fetchone run;
  let balance_columns := column_names (description_1 run) in
  let balance_data :=
    match balance_row with
    | Some (v :: vs) => dict_zip balance_columns (v :: vs)
    | _ => ∅
    end in
  nextset_2 run;;
  extra_rows ← fetchall run;
  let extra_columns := column_names (description_2 run) in
  let extra_data := dict_zip extra_columns <$> extra_rows in
  purchases ← safe_float W (dict_get balance_data "Purchases");
  attendance ← safe_float W (dict_get balance_data "AttendancePresent");
  absences ← safe_float W (dict_get balance_data "UnexcusedAbsences");
  adjustments ← safe_float W (dict_get balance_data "MiscAdjustments");
  let remaining := (purchases + attendance + absences + adjustments)%float in
  Ok (<["balance" := PDict balance_data]>
     (<["extra" := PList (PDict <$> extra_data)]>
     (<["remaining_hours" := PFloat remaining]> ∅))).

(** The [finally] clause: the cursor is closed when [conn.cursor()] gave
    one, then the connection. *)
Definition balance_finally (run : cursor_run) : result unit :=
  match cursor run with
  | Ok _ => cursor_close run
  | Raise _ => Ok tt
  end;;
  conn_close run.

Definition get_hours_balance (W : world) (inquiry_id : pyval) : result pydict :=
  let run := USP_Report_AccountBalance W inquiry_id in
  raw_connection run;;
  let returned :=
    match balance_try W run with
    | Ok d => d
    | Raise _ => empty_balance
    end in
  balance_finally run;;
  Ok returned.

(** *** [get_sessions] *)

(** One turn of the [for] loop works on the dict [session], which it
    updates in place, and ends in one of three ways: it runs to its end,
    it raises, or it reaches a [continue]. *)
Inductive outcome (A : Type) :=
| Val (a : A)
| Exc (e : exn)
| Continue.
Arguments Val {A} a.
Arguments Exc {A} e.
Arguments Continue {A}.

Record turn (A : Type) := Turn { run_turn : pydict -> outcome A * pydict }.
Arguments Turn {A} _.
Arguments run_turn {A} _ _.

#[export] Instance turn_ret : MRet turn := fun A a => Turn (fun s => (Val a, s)).
#[export] Instance turn_bind : MBind turn := fun A B f m =>
  Turn (fun s =>
    match run_turn m s with
    | (Val a, s') => run_turn (f a) s'
    | (Exc e, s') => (Exc e, s')
    | (Continue, s') => (Continue, s')
    end).

(** [session.get(k)] *)
Definition session_get (k : string) : turn pyval :=
  Turn (fun s => (Val (dict_get s k), s)).

(** [session[k]] *)
Definition session_getitem (k : string) : turn pyval :=
  Turn (fun s =>
    (match getitem s k with Ok v => Val v | Raise e => Exc e end, s)).

(** [session[k] = v] *)
Definition session_set (k : string) (v : pyval) : turn unit :=
  Turn (fun s => (Val tt, <[k := v]> s)).

(** A call that may raise. *)
Definition call {A} (r : result A) : turn A :=
  Turn (fun s => (match r with Ok a => Val a | Raise e => Exc e end, s)).

Definition continue {A} : turn A := Turn (fun s => (Continue, s)).

Inductive bucket := Recent | Upcoming.

#[export] Instance bucket_eq_dec : EqDecision bucket.
Proof. solve_decision. Defined.

(** The [isinstance] chain that normalises [ScheduleDate]. *)
Definition normalize_date (W : world) (sched_raw : pyval) : turn date :=
  match sched_raw with
  | PDateTime d _ => mret d
  | PStr s =>
      match dateutil_parse W s with
      | Some parsed => mret parsed.1
      | None => continue
      end
  | _ => continue
  end.

(** The body of the outer [try]. *)
Definition try_body (W : world) (today : date) : turn bucket :=
  time_id ← session_get "TimeID";
  formatted_time ← (if truthy time_id then call (get_time W time_id)
                    else mret (PStr "Unknown"));
  session_set "Time" formatted_time;;
  sched_raw ← session_get "ScheduleDate";
  session_date ← normalize_date W sched_raw;
  (if negb (month session_date =? month today)
      || negb (year session_date =? year today)
   then continue else mret tt);;
  session_set "FormattedDate" (PStr (strftime_ymd session_date));;
  stored_day ← session_get "Day";
  blank ← (if negb (truthy stored_day) then mret true
           else d ← session_getitem "Day";
                stripped ← call (call_strip d);
                mret (String.eqb stripped ""));
  (if blank : bool then session_set "Day" (PStr (weekday_name session_date))
   else mret tt);;
  if date_ltb session_date today
  then session_set "category" (PStr "recent");; mret Recent
  else session_set "category" (PStr "upcoming");; mret Upcoming.

(** One turn with its [except] clause: the bucket the dict is appended to,
    with the dict as it then is, or [None] after a [continue]. *)
Definition classify (W : world) (today : date) (session : pydict)
    : option (bucket * pydict) :=
  match run_turn (try_body W today) session with
  | (Val b, s) => Some (b, s)
  | (Continue, _) => None
  | (Exc _, s) => Some (Upcoming, <["category" := PStr "upcoming"]> s)
  end.

(** The loop state: [recent_sessions] and [upcoming_sessions]. *)
Definition iteration (W : world) (today : date)
    (acc : list pydict * list pydict) (session : pydict)
    : list pydict * list pydict :=
  match classify W today session with
  | Some (Recent, s) => (acc.1 ++ [s], acc.2)
  | Some (Upcoming, s) => (acc.1, acc.2 ++ [s])
  | None => acc
  end.

(** [SELECT ... FROM tblSessionSchedule WHERE StudentId1 = :sid], then
    [fetchall()] and [dict(row._mapping)] on every row *)
Definition select_sessions (W : world) (student_id : pyval) : result (list pydict) :=
  engine_execute W SelectSessions;;
  key ← bind_key student_id;
  Ok (schedule_dict <$>
        List.filter (fun r => key_eq (schedule_StudentId1 r) key) (tblSessionSchedule W)).

(** The [for] loop and the [return]: [recent_sessions + upcoming_sessions]. *)
Definition aggregate (W : world) (today : date) (all_sessions : list pydict)
    : list pydict :=
  let buckets := fold_left (iteration W today) all_sessions ([], []) in
  buckets.1 ++ buckets.2.

Definition get_sessions (W : world) (student_id : pyval) : result (list pydict) :=
  all_sessions ← select_sessions W student_id;
  let today := (now W).1 in
  Ok (aggregate W today all_sessions).

(** *** [search_student] *)

(** [v[k]] on a value: a dict is subscripted by key; a subscript on another
    value is a [TypeError]. *)
Definition subscript (v : pyval) (k : string) : result pyval :=
  match v with
  | PDict m => getitem m k
  | _ => Raise TypeError
  end.

(** [jsonify(body), status] *)
Definition response : Type := pydict * Z.

Definition json_error (message : string) (status : Z) : response :=
  (<["error" := PStr message]> ∅, status).

(** [student["sessions"] = get_sessions(student["ID"])] for every student,
    in order. *)
Fixpoint attach_sessions (W : world) (students : list pydict) : result (list pydict) :=
  match students with
  | [] => Ok []
  | student :: rest =>
      student_id ← getitem student "ID";
      sessions ← get_sessions W student_id;
      rest' ← attach_sessions W rest;
      Ok (<["sessions" := PList (PDict <$> sessions)]> student :: rest')
  end.

(** The handler of [/api/search_student]; [contact_num] is the query
    argument, [None] when it is absent. *)
Definition search_student (W : world) (contact_num : option string) : result response :=
  match contact_num with
  | None => Ok (json_error "Missing contact_num" 400)
  | Some "" => Ok (json_error "Missing contact_num" 400)
  | Some cn =>
      inquiry ← find_inquiry_by_contact_phone W cn;
      if negb (truthy inquiry) then Ok (json_error "Parent not found" 404)
      else
        inquiry_id ← subscript inquiry "ID";
        engine_execute W SelectStudentsOfParent;;
        key ← bind_key inquiry_id;
        let students :=
          student_dict <$>
            List.filter (fun s => key_eq (student_InquiryID s) key) (tblstudents W) in
        match students with
        | [] => Ok (json_error "No students found for this parent" 404)
        | _ :: _ =>
            parent_info ← get_hours_balance W inquiry_id;
            let parent_data :=
              if truthy (PDict parent_info) then parent_info else ∅ in
            students' ← attach_sessions W students;
            Ok (<["success" := PBool true]>
               (<["inquiry_id" := inquiry_id]>
               (<["parent" := PDict parent_data]>
               (<["students" := PList (PDict <$> students')]> ∅))), 200)
        end
  end.

End Routes.
Export Routes.

(** ** [main.py]: the dashboard's view of the sessions *)

Module Main.

(** [s.get('category') == c] *)
Definition has_category (c : string) (s : pydict) : bool :=
  match dict_get s "category" with
  | PStr x => String.eqb x c
  | _ => false
  end.

(** The loop of [index] over [student_ids]: [all_sessions.extend(...)]. *)
Fixpoint collect_sessions (W : world) (student_ids : list pyval) : result (list pydict) :=
  match student_ids with
  | [] => Ok []
  | student_id :: rest =>
      student_sessions ← get_sessions W student_id;
      more ← collect_sessions W rest;
      Ok (student_sessions ++ more)
  end.

(** [all_sessions], [recent_sessions] and [upcoming_sessions] of [index] *)
Definition index_sessions (W : world) (student_ids : list pyval)
    : result (list pydict * list pydict * list pydict) :=
  all_sessions ← collect_sessions W student_ids;
  let recent_sessions := List.filter (has_category "recent") all_sessions in
  let upcoming_sessions := List.filter (has_category "upcoming") all_sessions in
  Ok (all_sessions, recent_sessions, upcoming_sessions).

(** *** The pages

    Flask's [session] is a dict kept across requests and [flash] queues a
    message with its category; a handler answers with a redirect to an
    endpoint or with a template and the values handed to it.

    Flask keeps the queued messages inside the session, under the key
    ["_flashes"], which the application never reads or writes by name:
    [session] below holds the keys of the application and [flashed] the
    content of ["_flashes"]. *)

Record flask := Flask {
  session : pydict;
  flashed : list (string * string) }.

(** [session.clear()]: every key goes, the queued messages with them. *)
Definition clear_session (st : flask) : flask := Flask ∅ [].

Inductive page :=
| Redirect (endpoint : string)
| Render (template : string) (context : pydict).

(** A block of statements under a [try]: it reads and writes the Flask
    state and may raise; what it wrote before raising stays written. *)
Record act (A : Type) := Act { run_act : flask -> result A * flask }.
Arguments Act {A} _.
Arguments run_act {A} _ _.

#[export] Instance act_ret : MRet act := fun A a => Act (fun st => (Ok a, st)).
#[export] Instance act_bind : MBind act := fun A B f m =>
  Act (fun st =>
    match run_act m st with
    | (Ok a, st') => run_act (f a) st'
    | (Raise e, st') => (Raise e, st')
    end).

(** A call that may raise. *)
Definition attempt {A} (r : result A) : act A := Act (fun st => (r, st)).

(** [session[k] = v] *)
Definition set_session (k : string) (v : pyval) : act unit :=
  Act (fun st => (Ok tt, Flask (<[k := v]> (session st)) (flashed st))).

(** [flash(message, category)] *)
Definition flash (message category : string) (st : flask) : flask :=
  Flask (session st) (flashed st ++ [(message, category)]).

Definition do_flash (message category : string) : act unit :=
  Act (fun st => (Ok tt, flash message category st)).

(** [k in session] *)
Definition in_session (k : string) (st : flask) : bool :=
  bool_decide (is_Some (session st !! k)).

(** [session.get(k, default)] *)
Definition session_get_default (k : string) (default : pyval) (st : flask) : pyval :=
  match session st !! k with
  | Some v => v
  | None => default
  end.

(** [d.get(k, default)] on a value: only a dict has the method. *)
Definition call_get (d : pyval) (k : string) (default : pyval) : result pyval :=
  match d with
  | PDict m => Ok (match m !! k with Some v => v | None => default end)
  | _ => Raise AttributeError
  end.

Fixpoint chars (s : string) : list pyval :=
  match s with
  | String c r => PStr (String c "") :: chars r
  | EmptyString => []
  end.

(** [result] as a monad over lists: the comprehension [[f(x) for x in l]]. *)
Fixpoint comprehension {A B} (f : A -> result B) (l : list A) : result (list B) :=
  match l with
  | [] => Ok []
  | x :: rest =>
      y ← f x;
      ys ← comprehension f rest;
      Ok (y :: ys)
  end.

Section Handlers.

(** [str(v)], as an f-string applies it, and [str(e)] for an exception. *)
Variable py_str : pyval -> string.
Variable exn_str : exn -> string.
(** The order in which a dict yields its keys, which the finite map does
    not record. *)
Variable key_order : pydict -> list string.

(** [for x in v] *)
Definition py_iter (v : pyval) : result (list pyval) :=
  match v with
  | PList l => Ok l
  | PStr s => Ok (chars s)
  | PDict m => Ok (PStr <$> key_order m)
  | _ => Raise TypeError
  end.

(** [len(v)] *)
Definition py_len (v : pyval) : result Z :=
  match v with
  | PList l => Ok (Z.of_nat (length l))
  | PStr s => Ok (Z.of_nat (String.length s))
  | PDict m => Ok (Z.of_nat (size m))
  | _ => Raise TypeError
  end.

(** The decorator: without both keys in the session the wrapped handler
    does not run. *)
Definition require_auth (f : flask -> page * flask) (st : flask) : page * flask :=
  if negb (in_session "contact_number" st) || negb (in_session "inquiry_id" st)
  then (Redirect "login", flash "Please log in to access this page." "warning" st)
  else f st.

(** The [try] block of [login]; [Some] is a [return] inside the block. *)
Definition login_try (W : world) (contact_number : string) : act (option page) :=
  inquiry_data ← attempt (find_inquiry_by_contact_phone W contact_number);
  if truthy inquiry_data then
    parent_info ← attempt (subscript inquiry_data "inquiry");
    students_info ← attempt (subscript inquiry_data "students");
    set_session "contact_number" (PStr contact_number);;
    inquiry_id ← attempt (subscript parent_info "InquiryID");
    set_session "inquiry_id" inquiry_id;;
    username ← attempt (call_get parent_info "Email" (PStr "Parent"));
    set_session "username" username;;
    names ← attempt (items ← py_iter students_info;
                     comprehension
                       (fun s => first_name ← subscript s "FirstName";
                                 last_name ← subscript s "LastName";
                                 Ok (PStr (py_str first_name +:+ " "
                                           +:+ py_str last_name)))
                       items);
    set_session "students" (PList names);;
    ids ← attempt (items ← py_iter students_info;
                   comprehension (fun s => subscript s "ID") items);
    set_session "student_ids" (PList ids);;
    found ← attempt (py_len students_info);
    do_flash ("Welcome back! Found " +:+ py_str (PInt found) +:+ " student(s).")
      "success";;
    mret (Some (Redirect "index"))
  else
    do_flash "Contact number not found. Please check your number or contact the center."
      "danger";;
    mret None.

(** [login]; [method] is the request method and [form_contact_number] the
    form field, [None] when absent. *)
Definition login (W : world) (method : string) (form_contact_number : option string)
    (st : flask) : page * flask :=
  if String.eqb method "POST" then
    match form_contact_number with
    | None | Some "" =>
        (Render "login.html" ∅, flash "Contact number is required." "danger" st)
    | Some contact_number =>
        match run_act (login_try W contact_number) st with
        | (Ok (Some answer), st') => (answer, st')
        | (Ok None, st') => (Render "login.html" ∅, st')
        | (Raise e, st') =>
            (Render "login.html" ∅,
             flash ("Error during login: " +:+ exn_str e) "danger" st')
        end
    end
  else (Render "login.html" ∅, st).

Definition register (method : string) (st : flask) : page * flask :=
  if String.eqb method "POST"
  then (Redirect "login", flash "Registration functionality coming soon." "info" st)
  else (Render "register.html" ∅, st).

(** [session.clear()], then the message and the redirect. *)
Definition logout (st : flask) : page * flask :=
  (Redirect "login",
   flash "You have been logged out successfully." "success" (clear_session st)).

(** The [try] block of [index]. *)
Definition index_try (W : world) : act page :=
  Act (fun st =>
    if negb (in_session "contact_number" st) || negb (in_session "inquiry_id" st)
    then (Ok (Redirect "login"),
          flash "Session expired. Please log in again." "warning"
            (clear_session st))
    else
      let inquiry_id := session_get_default "inquiry_id" PNone st in
      let student_ids := session_get_default "student_ids" (PList []) st in
      (items ← py_iter student_ids;
       all_sessions ← collect_sessions W items;
       balance_info ← (if truthy inquiry_id then get_hours_balance W inquiry_id
                       else Ok ∅);
       Ok (Render "index.html"
             (<["username" := session_get_default "username" PNone st]>
             (<["students" := session_get_default "students" (PList []) st]>
             (<["sessions" := PList (PDict <$> all_sessions)]>
             (<["balance_data" := PDict balance_info]> ∅))))),
       st)).

Definition index (W : world) : flask -> page * flask :=
  require_auth (fun st =>
    match run_act (index_try W) st with
    | (Ok answer, st') => (answer, st')
    | (Raise e, st') =>
        let st'' := flash ("Error loading dashboard: " +:+ exn_str e) "warning" st' in
        (Render "index.html"
           (<["username" := session_get_default "username" PNone st'']>
           (<["students" := session_get_default "students" (PList []) st'']>
           (<["sessions" := PList []]>
           (<["balance_data" := PDict ∅]> ∅)))),
         st'')
    end).

Definition schedule (W : world) : flask -> page * flask :=
  require_auth (fun st =>
    let student_ids := session_get_default "student_ids" (PList []) st in
    match (items ← py_iter student_ids; collect_sessions W items) with
    | Ok all_sessions =>
        (Render "schedule.html"
           (<["sessions" := PList (PDict <$> all_sessions)]>
           (<["students" := session_get_default "students" (PList []) st]>
           (<["username" := session_get_default "username" PNone st]> ∅))),
         st)
    | Raise e =>
        let st' := flash ("Error loading schedule: " +:+ exn_str e) "warning" st in
        (Render "schedule.html"
           (<["sessions" := PList []]>
           (<["students" := session_get_default "students" (PList []) st']>
           (<["username" := session_get_default "username" PNone st']> ∅))),
         st')
    end).

(** One line of the billing table. *)
Definition billing_row (remaining_hours student : pyval) : pyval :=
  PDict (<["StudentName" := student]>
        (<["HoursRemaining" := remaining_hours]>
        (<["LastPayment" := PStr "N/A"]> ∅))).

(** [balance_table_data]: one line per student when there is a balance and
    there are students. *)
Definition billing_table (balance_info : pydict) (students : pyval)
    : result (list pyval) :=
  if truthy (PDict balance_info) && truthy students then
    let remaining_hours :=
      match balance_info !! "remaining_hours" with
      | Some v => v
      | None => PInt 0
      end in
    match py_iter students with
    | Ok items => Ok (billing_row remaining_hours <$> items)
    | Raise e => Raise e
    end
  else Ok [].

Definition billing (W : world) : flask -> page * flask :=
  require_auth (fun st =>
    let inquiry_id := session_get_default "inquiry_id" PNone st in
    let students := session_get_default "students" (PList []) st in
    match (balance_info ← (if truthy inquiry_id then get_hours_balance W inquiry_id
                           else Ok ∅);
           balance_table_data ← billing_table balance_info students;
           Ok (balance_info, balance_table_data)) with
    | Ok (balance_info, balance_table_data) =>
        (Render "billing.html"
           (<["balance_data" := PDict balance_info]>
           (<["balance_table_data" := PList balance_table_data]>
           (<["students" := students]>
           (<["username" := session_get_default "username" PNone st]> ∅)))),
         st)
    | Raise e =>
        let st' := flash ("Error loading billing: " +:+ exn_str e) "warning" st in
        (Render "billing.html"
           (<["balance_data" := PDict ∅]>
           (<["balance_table_data" := PList []]>
           (<["students" := session_get_default "students" (PList []) st']>
           (<["username" := session_get_default "username" PNone st']> ∅)))),
         st')
    end).

End Handlers.

End Main.
Export Main.

(** ** [db.py] *)

Module Db.

(** The bytes that [urllib.parse.quote] never escapes: letters, digits and
    [_.-~]. *)
Definition always_safe (c : ascii) : bool :=
  let n := code c in
  ((65 <=? n) && (n <=? 90)) || ((97 <=? n) && (n <=? 122))
  || ((48 <=? n) && (n <=? 57))
  || (n =? 95) || (n =? 46) || (n =? 45) || (n =? 126).

Definition hex_digit (n : Z) : ascii :=
  ascii_of_N (Z.to_N (if n <? 10 then 48 + n else 55 + n)).

(** ["%{:02X}"] of one byte *)
Definition percent_byte (byte : Z) : string :=
  String "%" (String (hex_digit (byte / 16)) (String (hex_digit (byte mod 16)) "")).

(** The UTF-8 bytes of a code point below 256. *)
Definition utf8_bytes (c : ascii) : list Z :=
  let n := code c in
  if n <? 128 then [n] else [192 + n / 64; 128 + n mod 64].

(** [quote_plus(s)]: safe characters stay, a space becomes [+], every other
    character becomes the percent-escapes of its UTF-8 bytes. *)
Fixpoint quote_plus (s : string) : string :=
  match s with
  | EmptyString => EmptyString
  | String c r =>
      (if always_safe c then String c ""
       else if Ascii.eqb c " " then "+"
       else fold_right (fun byte acc => percent_byte byte +:+ acc) "" (utf8_bytes c))
      +:+ quote_plus r
  end.

(** [os.environ.get(name, default)] *)
Definition environ_get (environ : gmap string string) (name default : string)
    : string :=
  match environ !! name with
  | Some v => v
  | None => default
  end.

Definition get_database_url (environ : gmap string string) : string :=
  let server := environ_get environ "CRMSRV_ADDRESS" "localhost" in
  let database := environ_get environ "CRMSRV_DB" "master" in
  let username := environ_get environ "CRMSRV_USER" "sa" in
  let password := environ_get environ "CRMSRV_PASS" "password" in
  let encoded_password := quote_plus password in
  "mssql+pymssql://" +:+ username +:+ ":" +:+ encoded_password +:+ "@"
  +:+ server +:+ "/" +:+ database.

End Db.
Export Db.

(** ** Reading the results *)

Module Reading.

(** A 24-hour label written with two digits per field, as in ["13:00:00"]. *)
Definition label_24h (h m s : Z) : string :=
  pad2 h +:+ ":" +:+ pad2 m +:+ ":" +:+ pad2 s.

(** The 12-hour label with meridiem, the hour written without a leading
    zero, as in ["1:00 PM"]. *)
Definition label_12h (h m : Z) : string :=
  let h12 := if h mod 12 =? 0 then 12 else h mod 12 in
  (if h12 <? 10 then String (digit_char h12) "" else pad2 h12)
  +:+ ":" +:+ pad2 m +:+ " " +:+ (if h <? 12 then "AM" else "PM").



Definition balance_fields : list string :=
  ["Purchases"; "AttendancePresent"; "UnexcusedAbsences"; "MiscAdjustments"].


Definition extra_data_of (run : cursor_run) (extra_rows : list (list pyval))
    : list pydict :=
  dict_zip (column_names (description_2 run)) <$> extra_rows.

(** Checks run over every hour, minute and second. *)
Definition parses_back (h m s : nat) : bool :=
  match strptime_HMS (label_24h (Z.of_nat h) (Z.of_nat m) (Z.of_nat s)) with
  | Ok (Clock h' m' s' u') =>
      (h' =? Z.of_nat h) && (m' =? Z.of_nat m) && (s' =? Z.of_nat s) && (u' =? 0)
  | Raise _ => false
  end.

Definition formats_to_12h (h m : nat) : bool :=
  String.eqb (lstrip_zero (strftime_I_M_p (Clock (Z.of_nat h) (Z.of_nat m) 0 0)))
             (label_12h (Z.of_nat h) (Z.of_nat m)).

(** *** Reading a session row *)

(** The date of a row: that of a [datetime], or of the string that
    [dateutil] parses; none for an unparseable string and for a value that
    is neither a [datetime] nor a string. *)
Definition session_date (W : world) (s : pydict) : option date :=
  match dict_get s "ScheduleDate" with
  | PDateTime d _ => Some d
  | PStr str => fst <$> dateutil_parse W str
  | _ => None
  end.

Definition in_current_month (today d : date) : bool :=
  (month d =? month today) && (year d =? year today).

(** The time label looked up for a row. *)
Definition time_lookup (W : world) (s : pydict) : result pyval :=
  if truthy (dict_get s "TimeID") then get_time W (dict_get s "TimeID")
  else Ok (PStr "Unknown").

(** [not day or day.strip() == ""] *)
Definition day_check (stored_day : pyval) : result bool :=
  if negb (truthy stored_day) then Ok true
  else match stored_day with
       | PStr str => Ok (String.eqb (strip str) "")
       | _ => Raise AttributeError
       end.

(** One turn of the loop, written out case by case. *)
Definition turn_cases (W : world) (today : date) (s : pydict)
    : outcome bucket * pydict :=
  match time_lookup W s with
  | Raise e => (Exc e, s)
  | Ok formatted_time =>
      let s1 := <["Time" := formatted_time]> s in
      match session_date W s with
      | None => (Continue, s1)
      | Some d =>
          if negb (in_current_month today d) then (Continue, s1)
          else
            let s2 := <["FormattedDate" := PStr (strftime_ymd d)]> s1 in
            match day_check (dict_get s "Day") with
            | Raise e => (Exc e, s2)
            | Ok blank =>
                let s3 := if blank then <["Day" := PStr (weekday_name d)]> s2
                          else s2 in
                if date_ltb d today
                then (Val Recent, <["category" := PStr "recent"]> s3)
                else (Val Upcoming, <["category" := PStr "upcoming"]> s3)
            end
      end
  end.

Definition bucket_name (b : bucket) : string :=
  match b with
  | Recent => "recent"
  | Upcoming => "upcoming"
  end.

(** The rows that end in one bucket, in the order of retrieval. *)
Definition bucket_of (W : world) (today : date) (b : bucket)
    (all_sessions : list pydict) : list pydict :=
  omap (fun session =>
          match classify W today session with
          | Some (b', s) => if decide (b' = b) then Some s else None
          | None => None
          end) all_sessions.

(** A label made of white space only (the empty one included). *)
Fixpoint all_space (s : string) : bool :=
  match s with
  | String c r => is_space c && all_space r
  | EmptyString => true
  end.

(** Every character of the string satisfies [p]. *)
Fixpoint all_of (p : ascii -> bool) (s : string) : bool :=
  match s with
  | String c r => p c && all_of p r
  | EmptyString => true
  end.

(** The characters of a string. *)
Fixpoint string_chars (s : string) : list ascii :=
  match s with
  | String c r => c :: string_chars r
  | EmptyString => []
  end.

(** The world with another content of [tblSessionSchedule]. *)
Definition with_schedule (W : world) (rows : list schedule_row) : world :=
  {| tblTimes := tblTimes W; tblInquiry := tblInquiry W;
     tblstudents := tblstudents W; tblSessionSchedule := rows;
     engine_execute := engine_execute W;
     contact_phone_eq := contact_phone_eq W;
     USP_Report_AccountBalance := USP_Report_AccountBalance W;
     now := now W; dateutil_parse := dateutil_parse W;
     float_of_str := float_of_str W |}.

End Reading.
Export Reading.

(** ** Sample worlds *)

Module Samples.

(** A run of the stored procedure in which the call itself fails. *)
Definition failing_run : cursor_run :=
  {| raw_connection := Ok tt; cursor := Ok tt;
     callproc := Raise DatabaseError;
     nextset_1 := Ok false; fetchone := Ok None; description_1 := None;
     nextset_2 := Ok false; fetchall := Ok []; description_2 := None;
     cursor_close := Ok tt; conn_close := Ok tt |}.

(** A run in which the call fails and closing the connection fails too. *)
Definition broken_release_run : cursor_run :=
  {| raw_connection := Ok tt; cursor := Ok tt;
     callproc := Raise DatabaseError;
     nextset_1 := Ok false; fetchone := Ok None; description_1 := None;
     nextset_2 := Ok false; fetchall := Ok []; description_2 := None;
     cursor_close := Ok tt; conn_close := Raise DatabaseError |}.

(** A run in which no connection can be opened. *)
Definition unreachable_run : cursor_run :=
  {| raw_connection := Raise DatabaseError; cursor := Ok tt;
     callproc := Ok tt;
     nextset_1 := Ok false; fetchone := Ok None; description_1 := None;
     nextset_2 := Ok false; fetchall := Ok []; description_2 := None;
     cursor_close := Ok tt; conn_close := Ok tt |}.

(** A store that answers every statement, at noon of Saturday 2025-08-16. *)
Definition sample_world (times : list time_row) (inquiries : list inquiry_row)
    (students : list student_row) (rows : list schedule_row)
    (usp : pyval -> cursor_run) : world :=
  {| tblTimes := times; tblInquiry := inquiries; tblstudents := students;
     tblSessionSchedule := rows;
     engine_execute := fun _ => Ok tt;
     contact_phone_eq := String.eqb;
     USP_Report_AccountBalance := usp;
     now := (Date 2025 8 16, Clock 12 0 0 0);
     dateutil_parse := fun _ => None;
     float_of_str := fun _ => None |}.


(** One parent, reachable under 555-0100, and the students of the store. *)
Definition sample_parent : inquiry_row :=
  InquiryRow 12 (PStr "parent@example.org") (PStr "555-0100").

Definition sample_students : list student_row :=
  [StudentRow 7 (PStr "Ada") (PStr "Byron") (Some 12);
   StudentRow 8 (PStr "Bob") (PStr "Other") (Some 13);
   StudentRow 9 (PStr "Cy") (PStr "Byron") (Some 12)].

(** A time slot whose label carries a fraction of a second. *)
Definition fraction_times : list time_row :=
  [TimeRow 5 (TimeStr "13:00:00.0000000")].

Definition sample_times : list time_row :=
  [TimeRow 1 (TimeStr "13:00:00");
   TimeRow 2 (TimeObj (Clock 9 30 0 0));
   TimeRow 3 (TimeStr "1:00 PM")].

(** Rows of student 7 around Saturday 2025-08-16.  Time slot 3 carries the
    label ["1:00 PM"], which is not of the form HH:MM:SS. *)
Definition midnight : clock := Clock 0 0 0 0.

Definition row_past : schedule_row :=
  ScheduleRow (PStr "Monday") (PInt 1) (PDateTime (Date 2025 8 4) midnight) (Some 7).
Definition row_blank_day : schedule_row :=
  ScheduleRow (PStr " ") (PInt 2) (PDateTime (Date 2025 8 20) midnight) (Some 7).
Definition row_other_month : schedule_row :=
  ScheduleRow (PStr "Tuesday") (PInt 1) (PDateTime (Date 2025 7 1) midnight) (Some 7).
Definition row_unparseable : schedule_row :=
  ScheduleRow (PStr "Friday") (PInt 1) (PStr "soon") (Some 7).

Definition bad_slot_other_month : schedule_row :=
  ScheduleRow (PStr "Tuesday") (PInt 3) (PDateTime (Date 2025 7 1) midnight) (Some 7).
Definition bad_slot_past : schedule_row :=
  ScheduleRow (PStr "Monday") (PInt 3) (PDateTime (Date 2025 8 4) midnight) (Some 7).
Definition bad_slot_unparseable : schedule_row :=
  ScheduleRow (PStr "Friday") (PInt 3) (PStr "soon") (Some 7).
Definition bad_slot_blank_day : schedule_row :=
  ScheduleRow (PStr "") (PInt 3) (PDateTime (Date 2025 8 20) midnight) (Some 7).

(** A store that refuses the statement on [tblSessionSchedule] only. *)
Definition refusing_world : world :=
  {| tblTimes := []; tblInquiry := []; tblstudents := []; tblSessionSchedule := [];
     engine_execute := fun q => match q with
                                | SelectSessions => Raise DatabaseError
                                | _ => Ok tt
                                end;
     contact_phone_eq := String.eqb;
     USP_Report_AccountBalance := fun _ => failing_run;
     now := (Date 2025 8 16, Clock 12 0 0 0);
     dateutil_parse := fun _ => None;
     float_of_str := fun _ => None |}.

(** The session of a parent with one student, left by a login. *)
Definition logged_in : flask :=
  Flask (<["contact_number" := PStr "555-0100"]>
        (<["inquiry_id" := PInt 12]>
        (<["students" := PList [PStr "Ada Byron"]]>
        (<["student_ids" := PList [PInt 7]]> ∅)))) [].

Definition sessions_world (rows : list schedule_row) : world :=
  sample_world sample_times [] [] rows (fun _ => failing_run).

End Samples.
Export Samples.

(** ** Properties *)

(** *** Time labels *)

Lemma parses_back_all :
  forallb (fun h => forallb (fun m => forallb (parses_back h m) (seq 0 60)) (seq 0 60))
    (seq 0 24) = true.
Proof. vm_compute. reflexivity. Qed.

Lemma in_seq_of_Z (z : Z) (n : nat) :
  0 <= z < Z.of_nat n -> In (Z.to_nat z) (seq 0 n) /\ Z.of_nat (Z.to_nat z) = z.
Proof. intros Hz. split; [apply in_seq|]; lia. Qed.

Lemma strptime_label h m s :
  0 <= h < 24 -> 0 <= m < 60 -> 0 <= s < 60 ->
  strptime_HMS (label_24h h m s) = Ok (Clock h m s 0).
Proof.
  intros Hh Hm Hs.
  destruct (in_seq_of_Z h 24 Hh) as [Ih Eh].
  destruct (in_seq_of_Z m 60 Hm) as [Im Em].
  destruct (in_seq_of_Z s 60 Hs) as [Is Es].
  pose proof parses_back_all as Hall.
  rewrite forallb_forall in Hall. specialize (Hall _ Ih).
  rewrite forallb_forall in Hall. specialize (Hall _ Im).
  rewrite forallb_forall in Hall. specialize (Hall _ Is).
  unfold parses_back in Hall. rewrite Eh, Em, Es in Hall.
  destruct (strptime_HMS (label_24h h m s)) as [[h' m' s' u']|e]; [|discriminate].
  repeat (apply andb_prop in Hall; destruct Hall as [Hall ?]).
  f_equal. f_equal; lia.
Qed.

Lemma formats_to_12h_all :
  forallb (fun h => forallb (formats_to_12h h) (seq 0 60)) (seq 0 24) = true.
Proof. vm_compute. reflexivity. Qed.

Lemma strftime_label h m s u :
  0 <= h < 24 -> 0 <= m < 60 ->
  lstrip_zero (strftime_I_M_p (Clock h m s u)) = label_12h h m.
Proof.
  intros Hh Hm.
  destruct (in_seq_of_Z h 24 Hh) as [Ih Eh].
  destruct (in_seq_of_Z m 60 Hm) as [Im Em].
  pose proof formats_to_12h_all as Hall.
  rewrite forallb_forall in Hall. specialize (Hall _ Ih).
  rewrite forallb_forall in Hall. specialize (Hall _ Im).
  unfold formats_to_12h in Hall. rewrite Eh, Em in Hall.
  apply String.eqb_eq in Hall. exact Hall.
Qed.

Lemma string_app_nil (s : string) : s +:+ "" = s.
Proof.
  induction s as [|c s IH]; [reflexivity|].
  change (String c s +:+ "") with (String c (s +:+ "")). now rewrite IH.
Qed.

Lemma clock_isoformat_label h m s : clock_isoformat (Clock h m s 0) = label_24h h m s.
Proof.
  unfold clock_isoformat, label_24h.
  cbn [hour minute second microsecond Z.eqb].
  now rewrite string_app_nil.
Qed.

(** C7, as the code has it. Whatever the time-slot identifier, when the row
    found for it carries a 24-hour label written HH:MM:SS (as a string, or
    as a time object without microseconds), [get_time] returns the 12-hour
    label with meridiem and no leading zero; "13:00:00" gives "1:00 PM" and
    "09:30:00" gives "9:30 AM". *)
Theorem get_time_formats_label (W : world) (tid : pyval) (stored : sql_time)
    (h m s : Z) :
  0 <= h < 24 -> 0 <= m < 60 -> 0 <= s < 60 ->
  select_time W tid = Ok (Some stored) ->
  stored = TimeStr (label_24h h m s) \/ stored = TimeObj (Clock h m s 0) ->
  get_time W tid = Ok (PStr (label_12h h m))
  /\ (label_24h 13 0 0 = "13:00:00" /\ label_12h 13 0 = "1:00 PM")
  /\ (label_24h 9 30 0 = "09:30:00" /\ label_12h 9 30 = "9:30 AM").
Proof.
  intros Hh Hm Hs Hsel Hstored.
  split; [|split; split; reflexivity].
  unfold get_time. rewrite Hsel. simpl.
  assert (Hstr : time_str stored = label_24h h m s).
  { destruct Hstored as [-> | ->]; [reflexivity | apply clock_isoformat_label]. }
  assert (Htrue : time_truthy stored = true).
  { destruct Hstored as [-> | ->]; reflexivity. }
  rewrite Htrue, Hstr, (strptime_label h m s Hh Hm Hs). simpl.
  now rewrite (strftime_label h m s 0 Hh Hm).
Qed.

Lemma get_time_formats_label_witness :
  get_time (sample_world sample_times [] [] [] (fun _ => failing_run)) (PInt 1)
  = Ok (PStr "1:00 PM").
Proof.
  refine (proj1 (get_time_formats_label
    (sample_world sample_times [] [] [] (fun _ => failing_run)) (PInt 1)
    (TimeStr "13:00:00") 13 0 0 _ _ _ _ _)).
  - lia.
  - lia.
  - lia.
  - reflexivity.
  - left. reflexivity.
Defined.

(** C7, as it was stated, fails: the label of slot 5 is present, but it
    carries a fraction of a second after HH:MM:SS, and [get_time] raises
    [ValueError] instead of formatting it. *)
Lemma label_with_fraction_raises :
  select_time (sample_world fraction_times [] [] [] (fun _ => failing_run)) (PInt 5)
    = Ok (Some (TimeStr "13:00:00.0000000"))
  /\ time_truthy (TimeStr "13:00:00.0000000") = true
  /\ get_time (sample_world fraction_times [] [] [] (fun _ => failing_run)) (PInt 5)
     = Raise ValueError.
Proof. repeat split; vm_compute; reflexivity. Qed.

(** *** Hours balance *)

Lemma balance_try_raises_at_callproc (W : world) (run : cursor_run) (e : exn) :
  callproc run = Raise e -> exists e', balance_try W run = Raise e'.
Proof.
  intros Hcall. unfold balance_try.
  destruct (cursor run) as [[]|e0]; cbn; [|eauto].
  rewrite Hcall. cbn. eauto.
Qed.

(** C2, as the code has it. Once the connection is open, when the call of
    the stored procedure fails, or any step of the [try] block does, and the
    release of the cursor and of the connection in the [finally] clause
    raises nothing, [get_hours_balance] returns exactly the dict with an
    empty balance, no extra rows and 0.0 remaining hours, and raises
    nothing. *)
Theorem get_hours_balance_degrades (W : world) (inquiry_id : pyval) :
  let run := USP_Report_AccountBalance W inquiry_id in
  raw_connection run = Ok tt ->
  balance_finally run = Ok tt ->
  (exists e, callproc run = Raise e \/ balance_try W run = Raise e) ->
  get_hours_balance W inquiry_id = Ok empty_balance
  /\ empty_balance !! "balance" = Some (PDict ∅)
  /\ empty_balance !! "extra" = Some (PList [])
  /\ empty_balance !! "remaining_hours" = Some (PFloat 0%float)
  /\ dom empty_balance = {["balance"; "extra"; "remaining_hours"]}.
Proof.
  intros run Hconn Hfin [e Hfail].
  split; [|repeat split; vm_compute; reflexivity].
  assert (Htry : exists e', balance_try W run = Raise e').
  { destruct Hfail as [Hcall | Htry]; [|eauto].
    exact (balance_try_raises_at_callproc W run e Hcall). }
  destruct Htry as [e' Htry].
  unfold get_hours_balance. fold run.
  rewrite Hconn. cbn. rewrite Htry, Hfin. reflexivity.
Qed.

Lemma get_hours_balance_degrades_witness :
  get_hours_balance (sample_world [] [] [] [] (fun _ => failing_run)) (PInt 12)
  = Ok empty_balance.
Proof.
  refine (proj1 (get_hours_balance_degrades
    (sample_world [] [] [] [] (fun _ => failing_run)) (PInt 12) _ _ _)).
  - reflexivity.
  - reflexivity.
  - exists DatabaseError. left. reflexivity.
Defined.

(** C2, as it was stated, fails: the call of the stored procedure fails
    and closing the connection in the [finally] clause raises, and that
    exception reaches the caller; so does the one of a connection that
    cannot be opened, since [engine.raw_connection()] stands before the
    [try]. *)
Lemma release_failure_reaches_caller :
  callproc broken_release_run = Raise DatabaseError
  /\ get_hours_balance
       (sample_world [] [] [] [] (fun _ => broken_release_run)) (PInt 12)
     = Raise DatabaseError
  /\ get_hours_balance
       (sample_world [] [] [] [] (fun _ => unreachable_run)) (PInt 12)
     = Raise DatabaseError.
Proof. repeat split; reflexivity. Qed.





(** *** Contact lookup *)

Lemma filter_none_nil {A} (p : A -> bool) (l : list A) :
  (forall x, In x l -> p x = false) -> List.filter p l = [].
Proof.
  induction l as [|a l IH]; intros Hall; [reflexivity|]. cbn.
  rewrite (Hall a (or_introl eq_refl)). apply IH.
  intros x Hx. apply Hall. now right.
Qed.

Lemma head_filter_first {A} (p : A -> bool) (before after : list A) (x : A) :
  (forall y, In y before -> p y = false) -> p x = true ->
  head (List.filter p (before ++ x :: after)) = Some x.
Proof.
  intros Hbefore Hx. rewrite List.filter_app, (filter_none_nil p before Hbefore).
  cbn. now rewrite Hx.
Qed.

(** C6, as the code has it. With the store answering: when no inquiry row
    matches the phone, [find_inquiry_by_contact_phone] returns [None], which
    is no dict at all; when rows match, it returns the first of them
    together with the dicts of exactly the students whose [InquiryID] is
    that inquiry's identifier, in the order of the store; when there are no
    such students the result is that same dict, with the empty list under
    ["students"]. *)
Theorem contact_lookup_result (W : world) (contact_num : string) :
  engine_execute W SelectInquiry = Ok tt ->
  engine_execute W SelectStudents = Ok tt ->
  ((forall r, In r (tblInquiry W) -> phone_matches W contact_num r = false) ->
   find_inquiry_by_contact_phone W contact_num = Ok PNone)
  /\ (forall before parent after,
       tblInquiry W = before ++ parent :: after ->
       (forall r, In r before -> phone_matches W contact_num r = false) ->
       phone_matches W contact_num parent = true ->
       exists students,
         find_inquiry_by_contact_phone W contact_num =
           Ok (PDict (<["inquiry" := PDict (inquiry_dict parent)]>
                     (<["students" := PList students]> ∅)))
         /\ (forall v, In v students <->
               exists s, In s (tblstudents W)
                         /\ student_InquiryID s = Some (inquiry_ID parent)
                         /\ v = PDict (student_dict s))
         /\ ((forall s, In s (tblstudents W) ->
                student_InquiryID s <> Some (inquiry_ID parent)) ->
             students = [])).
Proof.
  intros Hinq Hstu. split.
  - intros Hnone. unfold find_inquiry_by_contact_phone.
    rewrite Hinq. cbn. now rewrite (filter_none_nil _ _ Hnone).
  - intros before parent after Htable Hbefore Hparent.
    eexists. split; [|split].
    + unfold find_inquiry_by_contact_phone. rewrite Hinq. cbn.
      rewrite Htable, (head_filter_first _ before after parent Hbefore Hparent).
      rewrite Hstu. cbn. reflexivity.
    + intros v. rewrite <- list_elem_of_In, list_elem_of_fmap. split.
      * intros [s [-> Hs]]. apply list_elem_of_In, filter_In in Hs as [Hs Hkey].
        exists s. repeat split; [exact Hs|].
        unfold key_eq in Hkey. destruct (student_InquiryID s) as [i|]; [|discriminate].
        apply Z.eqb_eq in Hkey. now subst.
      * intros [s [Hs [Hkey ->]]]. exists s. split; [reflexivity|].
        apply list_elem_of_In, filter_In. split; [exact Hs|].
        rewrite Hkey. cbn. apply Z.eqb_refl.
    + intros Hnone. rewrite filter_none_nil; [reflexivity|].
      intros s Hs. specialize (Hnone s Hs). unfold key_eq.
      destruct (student_InquiryID s) as [i|]; [|reflexivity].
      apply Z.eqb_neq. congruence.
Qed.

Lemma contact_lookup_result_witness :
  find_inquiry_by_contact_phone
    (sample_world [] [sample_parent] sample_students [] (fun _ => failing_run))
    "555-0199" = Ok PNone.
Proof.
  refine (proj1 (contact_lookup_result
    (sample_world [] [sample_parent] sample_students [] (fun _ => failing_run))
    "555-0199" _ _) _).
  - reflexivity.
  - reflexivity.
  - intros r [<- | []]. reflexivity.
Defined.

(** C6, as it was stated, fails: a parent without students is answered with
    the ordinary found-dict holding an empty student list, which is true in
    a condition just as the dict of a parent with students is. *)
Lemma contact_lookup_no_students_is_plain_success :
  find_inquiry_by_contact_phone
    (sample_world [] [sample_parent] [] [] (fun _ => failing_run)) "555-0100"
  = Ok (PDict (<["inquiry" := PDict (inquiry_dict sample_parent)]>
              (<["students" := PList []]> ∅)))
  /\ truthy (PDict (<["inquiry" := PDict (inquiry_dict sample_parent)]>
                   (<["students" := PList []]> ∅))) = true.
Proof. split; vm_compute; reflexivity. Qed.

(** C9. Whenever [find_inquiry_by_contact_phone] finds a parent, the dict
    it returns has the two keys ["inquiry"] and ["students"] and no key
    ["ID"]; so [search_student], called with that (non-empty) phone, raises
    [KeyError] at [inquiry["ID"]]. *)
Theorem search_student_key_miss (W : world) (contact_num : string) (m : pydict) :
  find_inquiry_by_contact_phone W contact_num = Ok (PDict m) ->
  dom m = {["inquiry"; "students"]}
  /\ m !! "ID" = None
  /\ (contact_num <> "" ->
      search_student W (Some contact_num) = Raise (KeyError "ID")).
Proof.
  intros Hfind.
  assert (Hshape : exists a b, m = <["inquiry" := a]> (<["students" := b]> ∅)).
  { unfold find_inquiry_by_contact_phone in Hfind.
    destruct (engine_execute W SelectInquiry) as [[]|e]; cbn in Hfind; [|discriminate].
    destruct (head _) as [parent|]; [|discriminate].
    destruct (engine_execute W SelectStudents) as [[]|e]; cbn in Hfind; [|discriminate].
    injection Hfind as <-. eauto. }
  destruct Hshape as [a [b ->]].
  assert (Hdom : dom (<["inquiry" := a]> (<["students" := b]> (∅ : pydict)))
                 = {["inquiry"; "students"]}).
  { rewrite !dom_insert_L, dom_empty_L. set_solver. }
  assert (Hid : (<["inquiry" := a]> (<["students" := b]> (∅ : pydict))) !! "ID" = None).
  { rewrite !lookup_insert_ne by discriminate. apply lookup_empty. }
  split; [exact Hdom|]. split; [exact Hid|].
  intros Hne. unfold search_student.
  destruct contact_num as [|c rest]; [congruence|].
  rewrite Hfind. cbn [mbind result_bind truthy].
  rewrite Hdom.
  rewrite bool_decide_eq_false_2 by set_solver. cbn [negb].
  unfold subscript, getitem. rewrite Hid. reflexivity.
Qed.

Lemma search_student_key_miss_witness :
  search_student
    (sample_world [] [sample_parent] sample_students [] (fun _ => failing_run))
    (Some "555-0100") = Raise (KeyError "ID").
Proof.
  refine (proj2 (proj2 (search_student_key_miss
    (sample_world [] [sample_parent] sample_students [] (fun _ => failing_run))
    "555-0100" _ _)) _).
  - vm_compute. reflexivity.
  - discriminate.
Defined.

(** *** Session aggregation *)

Lemma dict_get_insert_ne (s : pydict) (k k' : string) (v : pyval) :
  k <> k' -> dict_get (<[k := v]> s) k' = dict_get s k'.
Proof. intros Hne. unfold dict_get. now rewrite lookup_insert_ne. Qed.

Lemma getitem_truthy (s : pydict) (k : string) :
  truthy (dict_get s k) = true -> getitem s k = Ok (dict_get s k).
Proof.
  unfold dict_get, getitem. destruct (s !! k); [reflexivity | discriminate].
Qed.

Lemma getitem_insert_ne (s : pydict) (k k' : string) (v : pyval) :
  k <> k' -> getitem (<[k := v]> s) k' = getitem s k'.
Proof. intros Hne. unfold getitem. now rewrite lookup_insert_ne. Qed.

Ltac turn_step :=
  cbn [mbind mret turn_bind turn_ret run_turn session_get session_set
       session_getitem call continue normalize_date fst snd negb orb andb
       fmap option_fmap option_map];
  rewrite ?dict_get_insert_ne, ?getitem_insert_ne by discriminate.

Lemma try_body_cases (W : world) (today : date) (s : pydict) :
  run_turn (try_body W today) s = turn_cases W today s.
Proof.
  unfold try_body, turn_cases, time_lookup, session_date, in_current_month,
    day_check.
  turn_step.
  destruct (truthy (dict_get s "TimeID"));
    [destruct (get_time W (dict_get s "TimeID")) as [formatted_time|e]|];
    turn_step; try reflexivity.
  all: destruct (dict_get s "ScheduleDate") as [|?|?|?|str|d t|?|?|?];
    turn_step; try reflexivity.
  all: try (destruct (dateutil_parse W str) as [[d t]|]; turn_step; try reflexivity).
  all: destruct (month d =? month today), (year d =? year today);
    turn_step; try reflexivity.
  all: destruct (truthy (dict_get s "Day")) eqn:Hday; turn_step.
  all: try (rewrite (getitem_truthy s "Day" Hday);
            destruct (dict_get s "Day"); cbn [call_strip]; turn_step).
  all: try reflexivity.
  all: repeat case_match; try reflexivity.
Qed.

Lemma classify_cases (W : world) (today : date) (s : pydict) :
  classify W today s =
    match turn_cases W today s with
    | (Val b, s') => Some (b, s')
    | (Continue, _) => None
    | (Exc _, s') => Some (Upcoming, <["category" := PStr "upcoming"]> s')
    end.
Proof. unfold classify. now rewrite try_body_cases. Qed.

Ltac classify_inv H :=
  rewrite classify_cases in H; unfold turn_cases in H;
  repeat case_match; simplify_eq.

Lemma classify_category (W : world) (today : date) (s s' : pydict) (b : bucket) :
  classify W today s = Some (b, s') ->
  s' !! "category" = Some (PStr (bucket_name b)).
Proof. intros H. classify_inv H; apply lookup_insert_eq. Qed.

Lemma classify_keeps (W : world) (today : date) (s s' : pydict) (b : bucket) :
  classify W today s = Some (b, s') ->
  dict_get s' "ScheduleDate" = dict_get s "ScheduleDate"
  /\ dict_get s' "TimeID" = dict_get s "TimeID".
Proof.
  intros H.
  classify_inv H; split; now rewrite ?dict_get_insert_ne by discriminate.
Qed.

Lemma classify_admits (W : world) (today : date) (s s' : pydict) (b : bucket) :
  classify W today s = Some (b, s') ->
  (exists e, time_lookup W s = Raise e)
  \/ (exists d, session_date W s = Some d /\ in_current_month today d = true).
Proof.
  intros H. classify_inv H; eauto.
  all: right; eexists; split; [reflexivity|]; now apply negb_false_iff.
Qed.

Lemma fold_iteration (W : world) (today : date) (rows : list pydict)
    (acc : list pydict * list pydict) :
  fold_left (iteration W today) rows acc =
    (acc.1 ++ bucket_of W today Recent rows,
     acc.2 ++ bucket_of W today Upcoming rows).
Proof.
  revert acc. induction rows as [|session rows IH]; intros [recent upcoming].
  - cbn. now rewrite !app_nil_r.
  - cbn [fold_left]. rewrite IH. unfold iteration, bucket_of. cbn [omap list_omap].
    destruct (classify W today session) as [[[] s']|]; cbn;
      rewrite <- ?app_assoc; reflexivity.
Qed.

Lemma aggregate_buckets (W : world) (today : date) (rows : list pydict) :
  aggregate W today rows =
    bucket_of W today Recent rows ++ bucket_of W today Upcoming rows.
Proof. unfold aggregate. now rewrite fold_iteration. Qed.

Lemma in_bucket_of (W : world) (today : date) (b : bucket) (rows : list pydict)
    (s' : pydict) :
  In s' (bucket_of W today b rows) <->
  exists session, In session rows /\ classify W today session = Some (b, s').
Proof.
  unfold bucket_of. rewrite <- list_elem_of_In, list_elem_of_omap. split.
  - intros [session [Hin Hc]]. exists session. rewrite <- list_elem_of_In.
    split; [exact Hin|].
    destruct (classify W today session) as [[b' s0]|]; [|discriminate].
    destruct (decide (b' = b)); now simplify_eq.
  - intros [session [Hin Hc]]. exists session. rewrite list_elem_of_In.
    split; [exact Hin|]. rewrite Hc. now rewrite decide_True.
Qed.

Lemma in_aggregate (W : world) (today : date) (rows : list pydict) (s' : pydict) :
  In s' (aggregate W today rows) <->
  exists session b, In session rows /\ classify W today session = Some (b, s').
Proof.
  rewrite aggregate_buckets, in_app_iff, !in_bucket_of. split.
  - intros [[session H] | [session H]]; eauto.
  - intros [session [[] H]]; eauto.
Qed.

Lemma get_sessions_rows (W : world) (student_id : pyval) (out : list pydict) :
  get_sessions W student_id = Ok out ->
  exists rows, select_sessions W student_id = Ok rows
               /\ out = aggregate W (now W).1 rows.
Proof.
  unfold get_sessions. destruct (select_sessions W student_id) as [rows|e];
    cbn; intros H; [|discriminate].
  injection H as <-. eauto.
Qed.

Lemma get_sessions_category (W : world) (student_id : pyval) (out : list pydict) :
  get_sessions W student_id = Ok out ->
  Forall (fun s => s !! "category" = Some (PStr "recent")
                   \/ s !! "category" = Some (PStr "upcoming")) out.
Proof.
  intros Hout. destruct (get_sessions_rows W student_id out Hout) as [rows [_ ->]].
  apply List.Forall_forall. intros s' Hin.
  apply in_aggregate in Hin as [session [b [_ Hc]]].
  apply classify_category in Hc. destruct b; eauto.
Qed.

Lemma has_category_lookup (c : string) (s : pydict) :
  s !! "category" = Some (PStr c) ->
  forall c', has_category c' s = String.eqb c c'.
Proof. intros Hs c'. unfold has_category, dict_get. now rewrite Hs. Qed.

Lemma filter_all {A} (p : A -> bool) (l : list A) :
  (forall x, In x l -> p x = true) -> List.filter p l = l.
Proof.
  induction l as [|a l IH]; intros Hall; [reflexivity|]. cbn.
  rewrite (Hall a (or_introl eq_refl)). f_equal. apply IH.
  intros x Hx. apply Hall. now right.
Qed.

Lemma bucket_of_category (W : world) (today : date) (b : bucket)
    (rows : list pydict) (c : string) :
  List.filter (has_category c) (bucket_of W today b rows) =
    if String.eqb (bucket_name b) c then bucket_of W today b rows else [].
Proof.
  assert (Hcat : forall s', In s' (bucket_of W today b rows) ->
                   has_category c s' = String.eqb (bucket_name b) c).
  { intros s' Hin. apply in_bucket_of in Hin as [session [_ Hc]].
    apply classify_category in Hc. exact (has_category_lookup _ _ Hc c). }
  destruct (String.eqb (bucket_name b) c).
  - now apply filter_all.
  - now apply filter_none_nil.
Qed.

Lemma partition_by_category (l : list pydict) :
  Forall (fun s => s !! "category" = Some (PStr "recent")
                   \/ s !! "category" = Some (PStr "upcoming")) l ->
  Permutation l (List.filter (has_category "recent") l
                 ++ List.filter (has_category "upcoming") l).
Proof.
  induction 1 as [|s l Hs _ IH]; [constructor|]. cbn.
  destruct Hs as [Hs | Hs];
    rewrite !(has_category_lookup _ _ Hs); cbn.
  - now constructor.
  - now apply Permutation_cons_app.
Qed.

Lemma collect_sessions_category (W : world) (student_ids : list pyval) :
  forall all_sessions,
  collect_sessions W student_ids = Ok all_sessions ->
  Forall (fun s => s !! "category" = Some (PStr "recent")
                   \/ s !! "category" = Some (PStr "upcoming")) all_sessions.
Proof.
  induction student_ids as [|student_id rest IH]; intros all_sessions; cbn.
  - intros H. injection H as <-. constructor.
  - destruct (get_sessions W student_id) as [out|e] eqn:Hout; cbn; [|discriminate].
    destruct (collect_sessions W rest) as [more|e]; cbn; [|discriminate].
    intros H. injection H as <-. apply Forall_app. split.
    + exact (get_sessions_category W student_id out Hout).
    + now apply IH.
Qed.

(** C10. Every dict [get_sessions] returns has the key ["category"] with the
    value ["recent"] or ["upcoming"], the rows taken in by the [except]
    clause included; so keeping the recent ones and the upcoming ones gives
    back the whole list, and the two lists the dashboard builds over all
    students are, together, a rearrangement of all the sessions. *)
Theorem sessions_carry_category (W : world) (student_id : pyval)
    (out : list pydict) :
  get_sessions W student_id = Ok out ->
  Forall (fun s => s !! "category" = Some (PStr "recent")
                   \/ s !! "category" = Some (PStr "upcoming")) out
  /\ List.filter (has_category "recent") out
     ++ List.filter (has_category "upcoming") out = out
  /\ (forall student_ids all_sessions recent_sessions upcoming_sessions,
      index_sessions W student_ids
        = Ok (all_sessions, recent_sessions, upcoming_sessions) ->
      Permutation all_sessions (recent_sessions ++ upcoming_sessions)
      /\ length all_sessions
         = (length recent_sessions + length upcoming_sessions)%nat).
Proof.
  intros Hout. split; [exact (get_sessions_category W student_id out Hout)|].
  split.
  - destruct (get_sessions_rows W student_id out Hout) as [rows [_ ->]].
    rewrite aggregate_buckets, !List.filter_app, !bucket_of_category. cbn.
    now rewrite app_nil_r.
  - intros student_ids all_sessions recent_sessions upcoming_sessions.
    unfold index_sessions.
    destruct (collect_sessions W student_ids) as [collected|e] eqn:Hall;
      cbn; [|discriminate].
    intros H. injection H as <- <- <-.
    pose proof (partition_by_category collected
                  (collect_sessions_category W student_ids collected Hall)) as Hperm.
    split; [exact Hperm|].
    rewrite <- length_app. now apply Permutation_length.
Qed.

Lemma sessions_carry_category_witness :
  exists out,
    get_sessions (sessions_world [row_past; bad_slot_other_month; row_blank_day])
      (PInt 7) = Ok out
    /\ length out = 3%nat
    /\ List.filter (has_category "recent") out
       ++ List.filter (has_category "upcoming") out = out.
Proof.
  exists (aggregate (sessions_world [row_past; bad_slot_other_month; row_blank_day])
            (Date 2025 8 16)
            (schedule_dict <$> [row_past; bad_slot_other_month; row_blank_day])).
  split; [reflexivity|]. split; [vm_compute; reflexivity|].
  refine (proj1 (proj2 (sessions_carry_category
    (sessions_world [row_past; bad_slot_other_month; row_blank_day])
    (PInt 7) _ _))).
  reflexivity.
Defined.

(** *** Blank labels *)

Lemma all_space_all_of (s : string) : all_space s = all_of is_space s.
Proof. induction s as [|c s IH]; cbn; [reflexivity | now rewrite IH]. Qed.

Lemma lstrip_by_all (p : ascii -> bool) (s : string) :
  all_of p s = true -> lstrip_by p s = "".
Proof.
  induction s as [|c s IH]; cbn; [reflexivity|].
  intros H. apply andb_prop in H as [Hc Hs]. rewrite Hc. now apply IH.
Qed.

Lemma lstrip_by_not_all (p : ascii -> bool) (s : string) :
  all_of p s = false ->
  lstrip_by p s <> "" /\ all_of p (lstrip_by p s) = false.
Proof.
  induction s as [|c s IH]; cbn; [discriminate|].
  destruct (p c) eqn:Hc; cbn.
  - exact IH.
  - intros _. split; [discriminate|]. cbn. now rewrite Hc.
Qed.

Lemma all_of_rev_string (p : ascii -> bool) (s acc : string) :
  all_of p (rev_string s acc) = all_of p s && all_of p acc.
Proof.
  revert acc. induction s as [|c s IH]; intros acc; cbn; [reflexivity|].
  rewrite IH. cbn. destruct (p c), (all_of p s); reflexivity.
Qed.

Lemma rev_string_empty (s acc : string) :
  rev_string s acc = "" -> s = "" /\ acc = "".
Proof.
  revert acc. induction s as [|c s IH]; intros acc; cbn; [auto|].
  intros H. apply IH in H as [_ H]. discriminate.
Qed.

Lemma strip_all_space (s : string) : all_space s = true -> strip s = "".
Proof.
  rewrite all_space_all_of. intros H. unfold strip.
  now rewrite (lstrip_by_all _ _ H).
Qed.

Lemma strip_not_all_space (s : string) : all_space s = false -> strip s <> "".
Proof.
  rewrite all_space_all_of. intros H. unfold strip, rstrip_by.
  destruct (lstrip_by_not_all _ _ H) as [_ Hrest].
  set (t := lstrip_by is_space s) in *.
  assert (Hrev : all_of is_space (rev_string t "") = false).
  { rewrite all_of_rev_string, Hrest. reflexivity. }
  destruct (lstrip_by_not_all _ _ Hrev) as [Hne _].
  intros Hempty. apply rev_string_empty in Hempty as [Hempty _]. contradiction.
Qed.

Lemma day_check_blank (v : pyval) :
  v = PNone \/ (exists str, v = PStr str /\ all_space str = true) ->
  day_check v = Ok true.
Proof.
  intros [-> | [str [-> Hstr]]]; [reflexivity|].
  unfold day_check. cbn. destruct (String.eqb str ""); cbn; [reflexivity|].
  now rewrite (strip_all_space str Hstr).
Qed.

Lemma day_check_label (str : string) :
  all_space str = false -> day_check (PStr str) = Ok false.
Proof.
  intros Hstr. unfold day_check. cbn.
  destruct (String.eqb_spec str "") as [-> | _]; [discriminate|]. cbn.
  destruct (String.eqb_spec (strip str) "") as [Hs | _]; [|reflexivity].
  now apply strip_not_all_space in Hs.
Qed.

(** *** The month filter *)

Lemma session_date_keeps (W : world) (s s' : pydict) :
  dict_get s' "ScheduleDate" = dict_get s "ScheduleDate" ->
  session_date W s' = session_date W s.
Proof. intros H. unfold session_date. now rewrite H. Qed.

Lemma time_lookup_keeps (W : world) (s s' : pydict) :
  dict_get s' "TimeID" = dict_get s "TimeID" ->
  time_lookup W s' = time_lookup W s.
Proof. intros H. unfold time_lookup. now rewrite H. Qed.

Lemma in_current_month_eq (today d : date) :
  in_current_month today d = true <->
  month d = month today /\ year d = year today.
Proof.
  unfold in_current_month. rewrite andb_true_iff, !Z.eqb_eq. reflexivity.
Qed.

Lemma classify_drops (W : world) (today : date) (s : pydict) :
  (forall e, time_lookup W s <> Raise e) ->
  (forall d, session_date W s = Some d -> in_current_month today d = false) ->
  classify W today s = None.
Proof.
  intros Htime Hdate. rewrite classify_cases. unfold turn_cases.
  destruct (time_lookup W s) as [formatted_time|e]; [|now destruct (Htime e)].
  destruct (session_date W s) as [d|]; [|reflexivity].
  now rewrite (Hdate d eq_refl).
Qed.

(** C1, as the code has it. Every dict [get_sessions] returns either has a
    schedule date in the month and year of [datetime.now()], or belongs to a
    row whose time-slot lookup raised, which the [except] clause files under
    "upcoming" before the date is looked at.  And a fetched row whose date
    is missing or outside that month, and whose time-slot lookup does not
    raise, is left out. *)
Theorem month_filter_outside_fallback (W : world) (student_id : pyval)
    (out : list pydict) :
  get_sessions W student_id = Ok out ->
  (forall s', In s' out ->
     (exists e, time_lookup W s' = Raise e)
     \/ (exists d, session_date W s' = Some d
                   /\ month d = month (now W).1 /\ year d = year (now W).1))
  /\ (forall rows session,
        select_sessions W student_id = Ok rows -> In session rows ->
        (forall e, time_lookup W session <> Raise e) ->
        (forall d, session_date W session = Some d ->
                   in_current_month (now W).1 d = false) ->
        classify W (now W).1 session = None
        /\ forall s', In s' out ->
             forall b, classify W (now W).1 session <> Some (b, s')).
Proof.
  intros Hout. split.
  - destruct (get_sessions_rows W student_id out Hout) as [rows [_ ->]].
    intros s' Hin. apply in_aggregate in Hin as [session [b [_ Hc]]].
    destruct (classify_keeps _ _ _ _ _ Hc) as [Hdate Htime].
    rewrite (session_date_keeps W _ _ Hdate), (time_lookup_keeps W _ _ Htime).
    destruct (classify_admits _ _ _ _ _ Hc) as [Hraise | [d [Hd Hmonth]]];
      [now left | right].
    exists d. split; [exact Hd|]. now apply in_current_month_eq.
  - intros rows session _ _ Htime Hdate.
    pose proof (classify_drops W _ session Htime Hdate) as Hnone.
    split; [exact Hnone|]. intros s' _ b. now rewrite Hnone.
Qed.

Lemma month_filter_outside_fallback_witness :
  exists out,
    get_sessions (sessions_world [row_past; row_other_month; row_blank_day])
      (PInt 7) = Ok out
    /\ length out = 2%nat
    /\ forall s', In s' out ->
         (exists e, time_lookup
                      (sessions_world [row_past; row_other_month; row_blank_day])
                      s' = Raise e)
         \/ (exists d, session_date
                         (sessions_world [row_past; row_other_month; row_blank_day])
                         s' = Some d
                       /\ month d = 8 /\ year d = 2025).
Proof.
  exists (aggregate (sessions_world [row_past; row_other_month; row_blank_day])
            (Date 2025 8 16)
            (schedule_dict <$> [row_past; row_other_month; row_blank_day])).
  split; [reflexivity|]. split; [vm_compute; reflexivity|].
  refine (proj1 (month_filter_outside_fallback
    (sessions_world [row_past; row_other_month; row_blank_day]) (PInt 7) _ _)).
  reflexivity.
Defined.

(** C1, as it was stated, fails: the time label of slot 3 does not parse,
    [get_time] raises, and the row of 1 July is returned among the upcoming
    sessions of August. *)
Lemma fallback_admits_other_month :
  get_sessions (sessions_world [bad_slot_other_month]) (PInt 7)
    = Ok [<["category" := PStr "upcoming"]> (schedule_dict bad_slot_other_month)]
  /\ session_date (sessions_world [bad_slot_other_month])
       (<["category" := PStr "upcoming"]> (schedule_dict bad_slot_other_month))
     = Some (Date 2025 7 1)
  /\ (now (sessions_world [bad_slot_other_month])).1 = Date 2025 8 16
  /\ in_current_month (Date 2025 8 16) (Date 2025 7 1) = false.
Proof. repeat split; vm_compute; reflexivity. Qed.

(** *** Recent and upcoming *)

Lemma date_ltb_irrefl (d : date) : date_ltb d d = false.
Proof.
  unfold date_ltb. rewrite !Z.ltb_irrefl, !Z.eqb_refl. reflexivity.
Qed.

Lemma classify_in_month (W : world) (today : date) (s : pydict) (d : date)
    (formatted_time : pyval) (blank : bool) :
  time_lookup W s = Ok formatted_time ->
  session_date W s = Some d ->
  in_current_month today d = true ->
  day_check (dict_get s "Day") = Ok blank ->
  classify W today s =
    Some (if date_ltb d today then Recent else Upcoming,
          <["category" := PStr (if date_ltb d today then "recent" else "upcoming")]>
            ((if blank then <["Day" := PStr (weekday_name d)]> else id)
               (<["FormattedDate" := PStr (strftime_ymd d)]>
                  (<["Time" := formatted_time]> s)))).
Proof.
  intros Htime Hdate Hmonth Hday. rewrite classify_cases. unfold turn_cases.
  rewrite Htime, Hdate, Hmonth, Hday. cbn [negb].
  destruct (date_ltb d today), blank; reflexivity.
Qed.

Lemma not_raise_ok {A} (r : result A) :
  (forall e, r <> Raise e) -> exists a, r = Ok a.
Proof. destruct r as [a|e]; [eauto | intros H; now destruct (H e)]. Qed.

Lemma classify_time_raises (W : world) (today : date) (s : pydict) (e : exn) :
  time_lookup W s = Raise e ->
  classify W today s = Some (Upcoming, <["category" := PStr "upcoming"]> s).
Proof.
  intros Htime. rewrite classify_cases. unfold turn_cases. now rewrite Htime.
Qed.

Lemma classify_day_raises (W : world) (today : date) (s : pydict) (d : date)
    (formatted_time : pyval) (e : exn) :
  time_lookup W s = Ok formatted_time ->
  session_date W s = Some d ->
  in_current_month today d = true ->
  day_check (dict_get s "Day") = Raise e ->
  classify W today s =
    Some (Upcoming,
          <["category" := PStr "upcoming"]>
            (<["FormattedDate" := PStr (strftime_ymd d)]>
               (<["Time" := formatted_time]> s))).
Proof.
  intros Htime Hdate Hmonth Hday. rewrite classify_cases. unfold turn_cases.
  now rewrite Htime, Hdate, Hmonth, Hday.
Qed.

(** C3, as the code has it. [get_sessions] returns the rows filed under
    "recent", in the order of retrieval, followed by the rows filed under
    "upcoming", in the order of retrieval, dates playing no part in the
    order.  A row with a date in the current month and year, whose time-slot
    lookup and day label raise nothing, is filed under "recent" when its
    date is strictly before today and under "upcoming" otherwise, today
    included.  A row whose time-slot lookup raises is filed under
    "upcoming" whatever its date, and so is a row of the current month whose
    day label raises. *)
Theorem recent_then_upcoming (W : world) (student_id : pyval) (out : list pydict) :
  get_sessions W student_id = Ok out ->
  exists rows,
    select_sessions W student_id = Ok rows
    /\ out = bucket_of W (now W).1 Recent rows ++ bucket_of W (now W).1 Upcoming rows
    /\ (forall session d,
          In session rows ->
          session_date W session = Some d ->
          in_current_month (now W).1 d = true ->
          (forall e, time_lookup W session <> Raise e) ->
          (forall e, day_check (dict_get session "Day") <> Raise e) ->
          exists s',
            classify W (now W).1 session
              = Some (if date_ltb d (now W).1 then Recent else Upcoming, s')
            /\ s' !! "category"
               = Some (PStr (if date_ltb d (now W).1 then "recent" else "upcoming"))
            /\ In s' out)
    /\ date_ltb (now W).1 (now W).1 = false
    /\ (forall session e,
          In session rows ->
          time_lookup W session = Raise e ->
          classify W (now W).1 session
            = Some (Upcoming, <["category" := PStr "upcoming"]> session)
          /\ In (<["category" := PStr "upcoming"]> session)
                (bucket_of W (now W).1 Upcoming rows)
          /\ In (<["category" := PStr "upcoming"]> session) out)
    /\ (forall session d e,
          In session rows ->
          (forall e', time_lookup W session <> Raise e') ->
          session_date W session = Some d ->
          in_current_month (now W).1 d = true ->
          day_check (dict_get session "Day") = Raise e ->
          exists s',
            classify W (now W).1 session = Some (Upcoming, s')
            /\ s' !! "category" = Some (PStr "upcoming")
            /\ In s' (bucket_of W (now W).1 Upcoming rows)
            /\ In s' out).
Proof.
  intros Hout. destruct (get_sessions_rows W student_id out Hout) as [rows [Hrows ->]].
  exists rows. split; [exact Hrows|]. split; [apply aggregate_buckets|].
  split; [|split; [apply date_ltb_irrefl|split]].
  - intros session d Hin Hdate Hmonth Htime Hday.
    destruct (not_raise_ok _ Htime) as [formatted_time Hft].
    destruct (not_raise_ok _ Hday) as [blank Hblank].
    pose proof (classify_in_month W _ session d formatted_time blank
                  Hft Hdate Hmonth Hblank) as Hc.
    eexists. split; [exact Hc|]. split.
    + rewrite lookup_insert_eq. reflexivity.
    + apply in_aggregate. eauto.
  - intros session e Hin Htime.
    pose proof (classify_time_raises W (now W).1 session e Htime) as Hc.
    split; [exact Hc|]. split.
    + apply in_bucket_of. eauto.
    + apply in_aggregate. eauto.
  - intros session d e Hin Htime Hdate Hmonth Hday.
    destruct (not_raise_ok _ Htime) as [formatted_time Hft].
    pose proof (classify_day_raises W (now W).1 session d formatted_time e
                  Hft Hdate Hmonth Hday) as Hc.
    eexists. split; [exact Hc|]. split; [apply lookup_insert_eq|]. split.
    + apply in_bucket_of. eauto.
    + apply in_aggregate. eauto.
Qed.

Lemma recent_then_upcoming_witness :
  exists out,
    get_sessions (sessions_world [row_blank_day; row_past; row_other_month])
      (PInt 7) = Ok out
    /\ (fun s => dict_get s "category") <$> out = [PStr "recent"; PStr "upcoming"]
    /\ exists rows,
         select_sessions (sessions_world [row_blank_day; row_past; row_other_month])
           (PInt 7) = Ok rows
         /\ out = bucket_of (sessions_world [row_blank_day; row_past; row_other_month])
                    (Date 2025 8 16) Recent rows
                  ++ bucket_of (sessions_world [row_blank_day; row_past; row_other_month])
                       (Date 2025 8 16) Upcoming rows.
Proof.
  exists (aggregate (sessions_world [row_blank_day; row_past; row_other_month])
            (Date 2025 8 16)
            (schedule_dict <$> [row_blank_day; row_past; row_other_month])).
  split; [reflexivity|]. split; [vm_compute; reflexivity|].
  destruct (recent_then_upcoming
    (sessions_world [row_blank_day; row_past; row_other_month]) (PInt 7) _
    eq_refl) as [rows [Hrows [Hout _]]].
  exists rows. split; [exact Hrows | exact Hout].
Defined.

(** C3, as it was stated, fails: the row of 4 August, before the 16th, has
    a time slot whose label does not parse, and comes back as "upcoming". *)
Lemma fallback_files_past_as_upcoming :
  get_sessions (sessions_world [bad_slot_past]) (PInt 7)
    = Ok [<["category" := PStr "upcoming"]> (schedule_dict bad_slot_past)]
  /\ session_date (sessions_world [bad_slot_past]) (schedule_dict bad_slot_past)
     = Some (Date 2025 8 4)
  /\ in_current_month (now (sessions_world [bad_slot_past])).1 (Date 2025 8 4) = true
  /\ date_ltb (Date 2025 8 4) (now (sessions_world [bad_slot_past])).1 = true.
Proof. repeat split; vm_compute; reflexivity. Qed.

(** *** Rows without a date *)

Lemma session_date_none (W : world) (s : pydict) :
  session_date W s = None <->
  match dict_get s "ScheduleDate" with
  | PDateTime _ _ => False
  | PStr str => dateutil_parse W str = None
  | _ => True
  end.
Proof.
  unfold session_date. destruct (dict_get s "ScheduleDate"); try tauto.
  - destruct (dateutil_parse W s0); cbn; split; congruence.
  - split; [discriminate | tauto].
Qed.

Lemma bucket_of_app (W : world) (today : date) (b : bucket) (l1 l2 : list pydict) :
  bucket_of W today b (l1 ++ l2) = bucket_of W today b l1 ++ bucket_of W today b l2.
Proof. unfold bucket_of. apply omap_app. Qed.

Lemma bucket_of_skips (W : world) (today : date) (b : bucket) (after : list pydict)
    (session : pydict) :
  classify W today session = None ->
  bucket_of W today b (session :: after) = bucket_of W today b after.
Proof.
  intros Hnone. unfold bucket_of. cbn [omap list_omap]. now rewrite Hnone.
Qed.

Lemma aggregate_skips (W : world) (today : date) (before after : list pydict)
    (session : pydict) :
  classify W today session = None ->
  aggregate W today (before ++ session :: after) = aggregate W today (before ++ after).
Proof.
  intros Hnone. rewrite !aggregate_buckets, !bucket_of_app.
  now rewrite !(bucket_of_skips W today _ after session Hnone).
Qed.

Lemma aggregate_with_schedule (W : world) (rows : list schedule_row) (today : date)
    (all_sessions : list pydict) :
  aggregate (with_schedule W rows) today all_sessions = aggregate W today all_sessions.
Proof. reflexivity. Qed.

(** C4, as the code has it. A row whose schedule date is a string that does
    not parse, or is neither a [datetime] nor a string, and whose time-slot
    lookup does not raise, is dropped on its own: it goes to neither
    bucket, and [get_sessions] answers as it does on the store without that
    row. *)
Theorem unparseable_row_is_dropped (W : world) (before after : list schedule_row)
    (r : schedule_row) :
  (forall e, time_lookup W (schedule_dict r) <> Raise e) ->
  session_date W (schedule_dict r) = None ->
  classify W (now W).1 (schedule_dict r) = None
  /\ (forall student_id,
        get_sessions (with_schedule W (before ++ r :: after)) student_id
        = get_sessions (with_schedule W (before ++ after)) student_id)
  /\ match schedule_ScheduleDate r with
     | PDateTime _ _ => False
     | PStr str => dateutil_parse W str = None
     | _ => True
     end.
Proof.
  intros Htime Hdate.
  assert (Hnone : classify W (now W).1 (schedule_dict r) = None).
  { apply classify_drops; [exact Htime|]. intros d Hd. congruence. }
  split; [exact Hnone|]. split.
  - intros student_id. unfold get_sessions, select_sessions.
    cbn [engine_execute tblSessionSchedule now with_schedule].
    destruct (engine_execute W SelectSessions) as [[]|e]; [|reflexivity].
    cbn [mbind result_bind].
    destruct (bind_key student_id) as [key|e]; [|reflexivity].
    cbn [mbind result_bind]. f_equal.
    rewrite !aggregate_with_schedule, !List.filter_app. cbn [List.filter].
    destruct (key_eq (schedule_StudentId1 r) key).
    + rewrite !fmap_app, fmap_cons. now apply aggregate_skips.
    + reflexivity.
  - apply (session_date_none W (schedule_dict r)) in Hdate. exact Hdate.
Qed.

Lemma unparseable_row_is_dropped_witness :
  get_sessions (sessions_world [row_past; row_unparseable; row_blank_day]) (PInt 7)
  = get_sessions (sessions_world [row_past; row_blank_day]) (PInt 7).
Proof.
  refine (proj1 (proj2 (unparseable_row_is_dropped
    (sessions_world []) [row_past] [row_blank_day] row_unparseable _ _)) (PInt 7)).
  - intros e. vm_compute. discriminate.
  - vm_compute. reflexivity.
Defined.

(** C4, as it was stated, fails: the schedule date "soon" does not parse,
    but the time label of slot 3 does not either, [get_time] raises first,
    and the row comes back among the upcoming sessions. *)
Lemma fallback_admits_unparseable :
  get_sessions (sessions_world [bad_slot_unparseable]) (PInt 7)
    = Ok [<["category" := PStr "upcoming"]> (schedule_dict bad_slot_unparseable)]
  /\ schedule_ScheduleDate bad_slot_unparseable = PStr "soon"
  /\ dateutil_parse (sessions_world [bad_slot_unparseable]) "soon" = None
  /\ session_date (sessions_world [bad_slot_unparseable])
       (schedule_dict bad_slot_unparseable) = None.
Proof. repeat split; vm_compute; reflexivity. Qed.

(** *** The day label *)

Lemma dict_get_lookup (s : pydict) (k : string) (v : pyval) :
  dict_get s k = v -> v <> PNone -> s !! k = Some v.
Proof.
  unfold dict_get. destruct (s !! k); intros <- Hne; [reflexivity | contradiction].
Qed.

(** C8, as the code has it. Take a fetched row with a date in the current
    month and year whose time-slot lookup does not raise.  When its stored
    day label is missing, [None], empty or made of white space, the returned
    dict has the weekday name of that date under ["Day"]; when the label is
    a string with a character that is not white space, the returned dict
    keeps it. *)
Theorem blank_day_gets_weekday (W : world) (student_id : pyval)
    (rows : list pydict) (session : pydict) (d : date) :
  select_sessions W student_id = Ok rows ->
  In session rows ->
  session_date W session = Some d ->
  in_current_month (now W).1 d = true ->
  (forall e, time_lookup W session <> Raise e) ->
  exists out,
    get_sessions W student_id = Ok out
    /\ ((dict_get session "Day" = PNone
         \/ (exists str, dict_get session "Day" = PStr str /\ all_space str = true)) ->
        exists s', In s' out
                   /\ s' !! "Day" = Some (PStr (weekday_name d))
                   /\ dict_get s' "ScheduleDate" = dict_get session "ScheduleDate")
    /\ (forall str,
          dict_get session "Day" = PStr str -> all_space str = false ->
          exists s', In s' out
                     /\ s' !! "Day" = Some (PStr str)
                     /\ dict_get s' "ScheduleDate" = dict_get session "ScheduleDate").
Proof.
  intros Hrows Hin Hdate Hmonth Htime.
  exists (aggregate W (now W).1 rows). split.
  { unfold get_sessions. rewrite Hrows. reflexivity. }
  destruct (not_raise_ok _ Htime) as [formatted_time Hft].
  split.
  - intros Hblank.
    pose proof (classify_in_month W _ session d formatted_time true
                  Hft Hdate Hmonth (day_check_blank _ Hblank)) as Hc.
    eexists. split; [apply in_aggregate; eauto|]. split.
    + rewrite lookup_insert_ne by discriminate. apply lookup_insert_eq.
    + exact (proj1 (classify_keeps _ _ _ _ _ Hc)).
  - intros str Hday Hstr.
    assert (Hcheck : day_check (dict_get session "Day") = Ok false).
    { rewrite Hday. now apply day_check_label. }
    pose proof (classify_in_month W _ session d formatted_time false
                  Hft Hdate Hmonth Hcheck) as Hc.
    eexists. split; [apply in_aggregate; eauto|]. split.
    + cbn [id]. rewrite !lookup_insert_ne by discriminate.
      now apply dict_get_lookup.
    + exact (proj1 (classify_keeps _ _ _ _ _ Hc)).
Qed.

Lemma blank_day_gets_weekday_witness :
  exists out s',
    get_sessions (sessions_world [row_past; row_blank_day]) (PInt 7) = Ok out
    /\ In s' out
    /\ s' !! "Day" = Some (PStr "Wednesday").
Proof.
  destruct (blank_day_gets_weekday
    (sessions_world [row_past; row_blank_day]) (PInt 7)
    [schedule_dict row_past; schedule_dict row_blank_day]
    (schedule_dict row_blank_day) (Date 2025 8 20)
    eq_refl
    ltac:(right; left; reflexivity)
    ltac:(vm_compute; reflexivity)
    ltac:(vm_compute; reflexivity)
    ltac:(intros e; vm_compute; discriminate))
    as [out [Hout [Hblank _]]].
  destruct Hblank as [s' [Hin [Hday _]]].
  { right. exists " ". split; vm_compute; reflexivity. }
  exists out, s'. split; [exact Hout|]. split; [exact Hin | exact Hday].
Defined.

(** C8, as it was stated, fails: the row of 20 August has an empty day
    label and a time slot whose label does not parse; it comes back with
    the empty label, not with "Wednesday". *)
Lemma fallback_keeps_blank_day :
  get_sessions (sessions_world [bad_slot_blank_day]) (PInt 7)
    = Ok [<["category" := PStr "upcoming"]> (schedule_dict bad_slot_blank_day)]
  /\ (<["category" := PStr "upcoming"]> (schedule_dict bad_slot_blank_day)) !! "Day"
     = Some (PStr "")
  /\ session_date (sessions_world [bad_slot_blank_day])
       (schedule_dict bad_slot_blank_day) = Some (Date 2025 8 20)
  /\ in_current_month (now (sessions_world [bad_slot_blank_day])).1 (Date 2025 8 20)
     = true
  /\ weekday_name (Date 2025 8 20) = "Wednesday".
Proof. repeat split; vm_compute; reflexivity. Qed.

(** ** Further properties *)

(** *** What [get_time] can return *)

Lemma is_digit_in_range (lo hi : Z) (c : ascii) :
  is_digit_in lo hi c = true -> lo <= digit_val c <= hi.
Proof.
  unfold is_digit_in, digit_val. intros H.
  apply andb_prop in H as [H1 H2]. apply Z.leb_le in H1, H2. lia.
Qed.

Lemma two_digits_range (lo1 hi1 lo2 hi2 : Z) (s r : string) (v : Z) :
  two_digits lo1 hi1 lo2 hi2 s = Some (v, r) ->
  10 * lo1 + lo2 <= v <= 10 * hi1 + hi2.
Proof.
  destruct s as [|a [|b r']]; cbn; try discriminate.
  destruct (is_digit_in lo1 hi1 a) eqn:Ha; cbn; [|discriminate].
  destruct (is_digit_in lo2 hi2 b) eqn:Hb; [|discriminate].
  intros H. injection H as <- _.
  apply is_digit_in_range in Ha, Hb. lia.
Qed.

Lemma one_digit_range (s r : string) (v : Z) :
  one_digit s = Some (v, r) -> 0 <= v <= 9.
Proof.
  destruct s as [|a r']; cbn; [discriminate|].
  destruct (is_digit_in 0 9 a) eqn:Ha; [|discriminate].
  intros H. injection H as <- _. now apply is_digit_in_range in Ha.
Qed.

Lemma alternation_inv {A} (alts : list alternative) (k : Z -> string -> option A)
    (s : string) (r : A) :
  alternation alts k s = Some r ->
  exists a v s', In a alts /\ a s = Some (v, s') /\ k v s' = Some r.
Proof.
  induction alts as [|a alts IH]; cbn; [discriminate|].
  destruct (a s) as [[v s']|] eqn:Ha.
  - destruct (k v s') as [r'|] eqn:Hk.
    + intros H. injection H as <-. exists a, v, s'. auto.
    + intros H. destruct (IH H) as [a' [v' [s'' [Hin H']]]]. exists a', v', s''. auto.
  - intros H. destruct (IH H) as [a' [v' [s'' [Hin H']]]]. exists a', v', s''. auto.
Qed.

Lemma literal_inv {A} (c : ascii) (k : string -> option A) (s : string) (r : A) :
  literal c k s = Some r -> exists s', s = String c s' /\ k s' = Some r.
Proof.
  destruct s as [|a s']; cbn; [discriminate|].
  destruct (Ascii.eqb_spec a c) as [-> | _]; [eauto | discriminate].
Qed.

Lemma match_HMS_range (s rest : string) (h m sec : Z) :
  match_HMS s = Some (h, m, sec, rest) ->
  0 <= h <= 23 /\ 0 <= m <= 59 /\ 0 <= sec <= 61.
Proof.
  unfold match_HMS. intros H.
  apply alternation_inv in H as [aH [vH [s1 [HinH [HaH H]]]]].
  apply literal_inv in H as [s2 [-> H]].
  apply alternation_inv in H as [aM [vM [s3 [HinM [HaM H]]]]].
  apply literal_inv in H as [s4 [-> H]].
  apply alternation_inv in H as [aS [vS [s5 [HinS [HaS H]]]]].
  injection H as <- <- <- <-.
  repeat split.
  all: cbn in HinH, HinM, HinS.
  all: repeat match goal with
       | H : _ \/ _ |- _ => destruct H as [<- | H]
       | H : False |- _ => destruct H
       end.
  all: repeat match goal with
       | H : two_digits _ _ _ _ _ = Some _ |- _ => apply two_digits_range in H
       | H : one_digit _ = Some _ |- _ => apply one_digit_range in H
       end; lia.
Qed.

Lemma strptime_HMS_range (s : string) (c : clock) :
  strptime_HMS s = Ok c ->
  0 <= hour c < 24 /\ 0 <= minute c < 60 /\ 0 <= second c < 60
  /\ microsecond c = 0.
Proof.
  unfold strptime_HMS.
  destruct (match_HMS s) as [[[[h m] sec] rest]|] eqn:Hm; [|discriminate].
  destruct (negb (String.eqb rest "")); [discriminate|].
  destruct (59 <? sec) eqn:Hsec; [discriminate|].
  intros H. injection H as <-. cbn.
  apply match_HMS_range in Hm. apply Z.ltb_ge in Hsec. lia.
Qed.

(** Whatever the store holds, [get_time] that does not raise returns [None]
    or a well-formed 12-hour label: an hour from 1 to 12 without leading
    zero, a colon, two digits of minutes, a space and AM or PM. *)
Theorem get_time_returns_label (W : world) (time_id v : pyval) :
  get_time W time_id = Ok v ->
  v = PNone
  \/ exists h m, 0 <= h < 24 /\ 0 <= m < 60 /\ v = PStr (label_12h h m).
Proof.
  unfold get_time.
  destruct (select_time W time_id) as [[t|]|e]; cbn; try discriminate.
  - destruct (time_truthy t).
    + destruct (strptime_HMS (time_str t)) as [c|e] eqn:Hc; cbn; [|discriminate].
      intros H. injection H as <-. right.
      apply strptime_HMS_range in Hc as [Hh [Hm _]].
      exists (hour c), (minute c). split; [exact Hh|]. split; [exact Hm|].
      destruct c as [h m s u]. cbn [hour minute] in *.
      now rewrite (strftime_label h m s u Hh Hm).
    + intros H. injection H as <-. now left.
  - intros H. injection H as <-. now left.
Qed.

Lemma get_time_returns_label_witness :
  PStr "9:30 AM" = PNone
  \/ exists h m, 0 <= h < 24 /\ 0 <= m < 60 /\ PStr "9:30 AM" = PStr (label_12h h m).
Proof.
  refine (get_time_returns_label
    (sample_world sample_times [] [] [] (fun _ => failing_run)) (PInt 2) _ _).
  vm_compute. reflexivity.
Defined.

(** *** Labels that [get_time] refuses *)

Lemma string_app_assoc (a b c : string) : (a +:+ b) +:+ c = a +:+ (b +:+ c).
Proof.
  induction a as [|x a IH]; [reflexivity|].
  change (String x ((a +:+ b) +:+ c) = String x (a +:+ (b +:+ c))).
  now rewrite IH.
Qed.

Lemma range_cases (P : Z -> Prop) (n : nat) :
  Forall P (map Z.of_nat (seq 0 n)) -> forall z, 0 <= z < Z.of_nat n -> P z.
Proof.
  intros Hall z Hz. rewrite List.Forall_forall in Hall. apply Hall.
  apply in_map_iff. exists (Z.to_nat z). split; [lia|]. apply in_seq. lia.
Qed.

Ltac by_range n :=
  let l := eval vm_compute in (map Z.of_nat (seq 0 n)) in
  let z := fresh "z" in let Hz := fresh "Hz" in
  intros z Hz; pattern z; apply (range_cases _ n); [|exact Hz];
  change (map Z.of_nat (seq 0 n)) with l;
  repeat first [apply List.Forall_nil | apply List.Forall_cons];
  let k := fresh "k" in let H := fresh "H" in
  intros ? k ? ? H; vm_compute; rewrite H; reflexivity.

Lemma directive_H_reads : forall h, 0 <= h < 24 ->
  forall A (k : Z -> string -> option A) rest r,
  k h rest = Some r -> alternation directive_H k (pad2 h +:+ rest) = Some r.
Proof. by_range 24%nat. Qed.

Lemma directive_M_reads : forall m, 0 <= m < 60 ->
  forall A (k : Z -> string -> option A) rest r,
  k m rest = Some r -> alternation directive_M k (pad2 m +:+ rest) = Some r.
Proof. by_range 60%nat. Qed.

Lemma directive_S_reads : forall s, 0 <= s < 60 ->
  forall A (k : Z -> string -> option A) rest r,
  k s rest = Some r -> alternation directive_S k (pad2 s +:+ rest) = Some r.
Proof. by_range 60%nat. Qed.

Lemma literal_reads {A} (c : ascii) (k : string -> option A) (rest : string) :
  literal c k (String c "" +:+ rest) = k rest.
Proof.
  change (String c "" +:+ rest) with (String c rest). cbn [literal].
  now rewrite Ascii.eqb_refl.
Qed.

Lemma match_HMS_reads (h m s : Z) (rest : string) :
  0 <= h < 24 -> 0 <= m < 60 -> 0 <= s < 60 ->
  match_HMS (pad2 h +:+ ":" +:+ pad2 m +:+ ":" +:+ pad2 s +:+ rest)
  = Some (h, m, s, rest).
Proof.
  intros Hh Hm Hs. unfold match_HMS.
  apply directive_H_reads; [exact Hh|]. rewrite literal_reads.
  apply directive_M_reads; [exact Hm|]. rewrite literal_reads.
  apply directive_S_reads; [exact Hs|]. reflexivity.
Qed.

Lemma strptime_HMS_trailing (h m s : Z) (rest : string) :
  0 <= h < 24 -> 0 <= m < 60 -> 0 <= s < 60 -> rest <> "" ->
  strptime_HMS (pad2 h +:+ ":" +:+ pad2 m +:+ ":" +:+ pad2 s +:+ rest)
  = Raise ValueError.
Proof.
  intros Hh Hm Hs Hrest. unfold strptime_HMS.
  rewrite (match_HMS_reads h m s rest Hh Hm Hs).
  destruct (String.eqb_spec rest "") as [-> | _]; [contradiction | reflexivity].
Qed.

(** A time label followed by anything more, and a time object that carries
    microseconds (which [str] prints after the seconds), make [get_time]
    raise [ValueError]: the format must cover the whole text. *)
Theorem get_time_refuses_longer_label (W : world) (time_id : pyval)
    (stored : sql_time) (h m s : Z) :
  0 <= h < 24 -> 0 <= m < 60 -> 0 <= s < 60 ->
  select_time W time_id = Ok (Some stored) ->
  (exists us, 0 < us < 1000000 /\ stored = TimeObj (Clock h m s us))
  \/ (exists rest, rest <> "" /\ stored = TimeStr (label_24h h m s +:+ rest)) ->
  get_time W time_id = Raise ValueError.
Proof.
  intros Hh Hm Hs Hsel Hstored. unfold get_time. rewrite Hsel. cbn [mbind result_bind].
  destruct Hstored as [[us [Hus ->]] | [rest [Hrest ->]]].
  - cbn [time_truthy time_str]. unfold clock_isoformat.
    cbn [hour minute second microsecond].
    destruct (Z.eqb_spec us 0) as [-> | _]; [lia|].
    rewrite strptime_HMS_trailing; [reflexivity | assumption..| discriminate].
  - assert (Htrue : time_truthy (TimeStr (label_24h h m s +:+ rest)) = true)
      by reflexivity.
    rewrite Htrue. cbn [time_str]. unfold label_24h.
    rewrite !string_app_assoc.
    rewrite strptime_HMS_trailing; [reflexivity | assumption..].
Qed.

Lemma get_time_refuses_longer_label_witness :
  get_time
    (sample_world [TimeRow 4 (TimeObj (Clock 13 0 0 500000))] [] [] []
       (fun _ => failing_run)) (PInt 4)
  = Raise ValueError.
Proof.
  refine (get_time_refuses_longer_label _ (PInt 4) (TimeObj (Clock 13 0 0 500000))
            13 0 0 _ _ _ _ _).
  - lia.
  - lia.
  - lia.
  - reflexivity.
  - left. exists 500000. split; [lia | reflexivity].
Defined.

(** *** Slots without a label *)

(** With the store answering: a time-slot identifier no row of [tblTimes]
    carries, the identifier [None], and a row whose label is NULL or empty
    all give [None], not an exception. *)
Theorem get_time_none_without_label (W : world) (z : Z) :
  engine_execute W SelectTime = Ok tt ->
  ((forall r, In r (tblTimes W) -> time_ID r <> z) ->
   get_time W (PInt z) = Ok PNone)
  /\ get_time W PNone = Ok PNone
  /\ (forall before r after,
        tblTimes W = before ++ r :: after ->
        (forall r', In r' before -> time_ID r' <> z) ->
        time_ID r = z ->
        time_Time r = TimeNull \/ time_Time r = TimeStr "" ->
        get_time W (PInt z) = Ok PNone).
Proof.
  intros Hexec. unfold get_time, select_time. rewrite Hexec.
  cbn [mbind result_bind bind_key]. split; [|split].
  - intros Hnone. rewrite filter_none_nil; [reflexivity|].
    intros r Hr. cbn. apply Z.eqb_neq. now apply Hnone.
  - rewrite filter_none_nil; [reflexivity | reflexivity].
  - intros before r after Htable Hbefore Hr Hlabel. rewrite Htable.
    rewrite head_filter_first.
    + cbn. destruct Hlabel as [-> | ->]; reflexivity.
    + intros r' Hr'. cbn. apply Z.eqb_neq. now apply Hbefore.
    + cbn. now apply Z.eqb_eq.
Qed.

Lemma get_time_none_without_label_witness :
  get_time (sample_world sample_times [] [] [] (fun _ => failing_run)) (PInt 9)
  = Ok PNone.
Proof.
  refine (proj1 (get_time_none_without_label
    (sample_world sample_times [] [] [] (fun _ => failing_run)) 9 _) _).
  - reflexivity.
  - intros r Hr. cbn in Hr.
    destruct Hr as [<- | [<- | [<- | []]]]; discriminate.
Defined.

(** *** The balance dict *)

Lemma balance_try_shape (W : world) (run : cursor_run) (d : pydict) :
  balance_try W run = Ok d ->
  exists data extra remaining,
    d = <["balance" := PDict data]>
        (<["extra" := PList extra]>
        (<["remaining_hours" := PFloat remaining]> ∅)).
Proof.
  unfold balance_try. intros H.
  repeat match type of H with
         | context [mbind _ ?x] =>
             destruct x eqn:?; cbn [mbind result_bind] in H; [|discriminate]
         end.
  injection H as <-. eauto.
Qed.

Lemma balance_dict_keys (data : pydict) (extra : list pyval) (remaining : float) :
  dom (<["balance" := PDict data]>
       (<["extra" := PList extra]>
       (<["remaining_hours" := PFloat remaining]> (∅ : pydict))))
  = {["balance"; "extra"; "remaining_hours"]}.
Proof. rewrite !dom_insert_L, dom_empty_L. set_solver. Qed.

(** Whatever the stored procedure did, a dict returned by
    [get_hours_balance] has exactly the keys ["balance"], ["extra"] and
    ["remaining_hours"], holding a dict, a list and a float. *)
Theorem get_hours_balance_keys (W : world) (inquiry_id : pyval) (d : pydict) :
  get_hours_balance W inquiry_id = Ok d ->
  dom d = {["balance"; "extra"; "remaining_hours"]}
  /\ (exists data, d !! "balance" = Some (PDict data))
  /\ (exists extra, d !! "extra" = Some (PList extra))
  /\ (exists remaining, d !! "remaining_hours" = Some (PFloat remaining)).
Proof.
  unfold get_hours_balance.
  destruct (raw_connection _) as [[]|e]; cbn [mbind result_bind]; [|discriminate].
  destruct (balance_finally _) as [[]|e]; cbn [mbind result_bind]; [|discriminate].
  intros H. injection H as <-.
  assert (Hshape : exists data extra remaining,
            match balance_try W (USP_Report_AccountBalance W inquiry_id) with
            | Ok d => d
            | Raise _ => empty_balance
            end
            = <["balance" := PDict data]>
              (<["extra" := PList extra]>
              (<["remaining_hours" := PFloat remaining]> ∅))).
  { destruct (balance_try W _) as [d|e] eqn:Htry.
    - exact (balance_try_shape W _ d Htry).
    - unfold empty_balance. eauto. }
  destruct Hshape as [data [extra [remaining ->]]].
  split; [apply balance_dict_keys|]. split; [|split]; eexists.
  - apply lookup_insert_eq.
  - rewrite lookup_insert_ne by discriminate. apply lookup_insert_eq.
  - rewrite !lookup_insert_ne by discriminate. apply lookup_insert_eq.
Qed.

Lemma get_hours_balance_keys_witness :
  dom empty_balance = {["balance"; "extra"; "remaining_hours"]}.
Proof.
  refine (proj1 (get_hours_balance_keys
    (sample_world [] [] [] [] (fun _ => failing_run)) (PInt 12) empty_balance _)).
  reflexivity.
Defined.

(** [get_hours_balance] raises only when opening the raw connection raises
    or when closing the cursor or the connection does; nothing that happens
    between the two reaches the caller. *)
Theorem get_hours_balance_raises_outside_try (W : world) (inquiry_id : pyval)
    (e : exn) :
  get_hours_balance W inquiry_id = Raise e ->
  let run := USP_Report_AccountBalance W inquiry_id in
  raw_connection run = Raise e
  \/ (raw_connection run = Ok tt /\ balance_finally run = Raise e).
Proof.
  unfold get_hours_balance.
  destruct (raw_connection _) as [[]|e0]; cbn [mbind result_bind].
  - destruct (balance_finally _) as [[]|e1]; cbn [mbind result_bind];
      [discriminate|].
    intros H. injection H as <-. now right.
  - intros H. injection H as <-. now left.
Qed.

Lemma get_hours_balance_raises_outside_try_witness :
  raw_connection
    (CursorRun (Raise DatabaseError) (Ok tt) (Ok tt) (Ok true) (Ok None) None
       (Ok true) (Ok []) None (Ok tt) (Ok tt)) = Raise DatabaseError
  \/ (raw_connection
        (CursorRun (Raise DatabaseError) (Ok tt) (Ok tt) (Ok true) (Ok None) None
           (Ok true) (Ok []) None (Ok tt) (Ok tt)) = Ok tt
      /\ balance_finally
           (CursorRun (Raise DatabaseError) (Ok tt) (Ok tt) (Ok true) (Ok None) None
              (Ok true) (Ok []) None (Ok tt) (Ok tt)) = Raise DatabaseError).
Proof.
  refine (get_hours_balance_raises_outside_try
    (sample_world [] [] [] []
       (fun _ => CursorRun (Raise DatabaseError) (Ok tt) (Ok tt) (Ok true) (Ok None)
                   None (Ok true) (Ok []) None (Ok tt) (Ok tt)))
    (PInt 12) DatabaseError _).
  reflexivity.
Defined.



(** *** Fields are read by column name *)

Lemma fold_insert_other (pairs : list (string * pyval)) (acc : pydict) (k : string) :
  ~ In k (map fst pairs) ->
  fold_left (fun d cv => <[cv.1 := cv.2]> d) pairs acc !! k = acc !! k.
Proof.
  revert acc. induction pairs as [|[c v] pairs IH]; intros acc Hk; [reflexivity|].
  cbn [fold_left]. rewrite IH.
  - cbn. apply lookup_insert_ne. intros ->. apply Hk. now left.
  - intros Hin. apply Hk. now right.
Qed.

Lemma combine_fst_subset (columns : list string) (row : list pyval) (k : string) :
  In k (map fst (combine columns row)) -> In k columns.
Proof.
  revert row. induction columns as [|c columns IH]; intros [|v row]; cbn; try tauto.
  intros [-> | H]; [now left | right; eauto].
Qed.

Lemma dict_zip_lookup (columns : list string) (row : list pyval) (i : nat)
    (k : string) (v : pyval) :
  NoDup columns -> nth_error columns i = Some k -> nth_error row i = Some v ->
  dict_zip columns row !! k = Some v.
Proof.
  unfold dict_zip. generalize (∅ : pydict) as acc.
  revert row i. induction columns as [|c columns IH];
    intros [|x row] [|i] acc Hnodup Hk Hv; try discriminate.
  - cbn in Hk, Hv. injection Hk as ->. injection Hv as ->.
    cbn [combine fold_left]. rewrite fold_insert_other.
    + cbn. apply lookup_insert_eq.
    + intros Hin. apply combine_fst_subset in Hin.
      apply NoDup_cons in Hnodup as [Hnotin _].
      apply Hnotin. now apply list_elem_of_In.
  - cbn [combine fold_left]. apply (IH row i).
    + now apply NoDup_cons in Hnodup as [_ Hnodup].
    + exact Hk.
    + exact Hv.
Qed.

Lemma dict_zip_missing (columns : list string) (row : list pyval) (k : string) :
  ~ In k columns -> dict_zip columns row !! k = None.
Proof.
  intros Hk. unfold dict_zip. rewrite fold_insert_other; [apply lookup_empty|].
  intros Hin. now apply combine_fst_subset in Hin.
Qed.

(** With distinct column names, the dict built from the second result set
    gives under each name the value at that column's position, whatever the
    order of the columns; a name that is no column is missing, and a missing
    field counts as 0.0. *)
Theorem balance_field_by_name (W : world) (columns : list string)
    (row : list pyval) :
  NoDup columns ->
  (forall i k v,
     nth_error columns i = Some k -> nth_error row i = Some v ->
     dict_get (dict_zip columns row) k = v)
  /\ (forall k, ~ In k columns ->
        dict_get (dict_zip columns row) k = PNone
        /\ safe_float W (dict_get (dict_zip columns row) k) = Ok 0%float).
Proof.
  intros Hnodup. split.
  - intros i k v Hk Hv. unfold dict_get.
    now rewrite (dict_zip_lookup columns row i k v Hnodup Hk Hv).
  - intros k Hk. unfold dict_get. rewrite (dict_zip_missing columns row k Hk).
    split; reflexivity.
Qed.

Lemma balance_field_by_name_witness :
  dict_get (dict_zip ["MiscAdjustments"; "Purchases"] [PInt 0; PInt 40]) "Purchases"
  = PInt 40.
Proof.
  refine (proj1 (balance_field_by_name
    (sample_world [] [] [] [] (fun _ => failing_run))
    ["MiscAdjustments"; "Purchases"] [PInt 0; PInt 40] _) 1%nat _ _ _ _).
  - apply NoDup_cons. split; [|apply NoDup_singleton].
    intros Hin. apply list_elem_of_In in Hin. cbn in Hin.
    destruct Hin as [Hin | []]. discriminate.
  - reflexivity.
  - reflexivity.
Defined.

(** When every call succeeds but the second result set has no row, the
    balance is the empty dict and the remaining hours are 0.0, while the
    rows of the third result set are still returned. *)
Theorem no_balance_row_gives_zero (W : world) (inquiry_id : pyval)
    (extra_rows : list (list pyval)) (more_1 more_2 : bool) :
  let run := USP_Report_AccountBalance W inquiry_id in
  raw_connection run = Ok tt ->
  cursor run = Ok tt ->
  callproc run = Ok tt ->
  nextset_1 run = Ok more_1 ->
  fetchone run = Ok None ->
  nextset_2 run = Ok more_2 ->
  fetchall run = Ok extra_rows ->
  balance_finally run = Ok tt ->
  get_hours_balance W inquiry_id =
    Ok (<["balance" := PDict ∅]>
       (<["extra" := PList (PDict <$> extra_data_of run extra_rows)]>
       (<["remaining_hours" := PFloat 0%float]> ∅))).
Proof.
  intros run Hconn Hcur Hcall Hn1 Hrow Hn2 Hall Hfin.
  unfold get_hours_balance. fold run. rewrite Hconn. cbn [mbind result_bind].
  unfold balance_try. rewrite Hcur, Hcall, Hn1, Hrow, Hn2, Hall.
  cbn [mbind result_bind]. rewrite Hfin. reflexivity.
Qed.

Lemma no_balance_row_gives_zero_witness :
  exists d,
    get_hours_balance
      (sample_world [] [] [] []
         (fun _ => CursorRun (Ok tt) (Ok tt) (Ok tt) (Ok true) (Ok None)
                     (Some balance_fields) (Ok false) (Ok []) None (Ok tt) (Ok tt)))
      (PInt 12) = Ok d
    /\ d !! "remaining_hours" = Some (PFloat 0%float).
Proof.
  eexists. split.
  - refine (no_balance_row_gives_zero
      (sample_world [] [] [] []
         (fun _ => CursorRun (Ok tt) (Ok tt) (Ok tt) (Ok true) (Ok None)
                     (Some balance_fields) (Ok false) (Ok []) None (Ok tt) (Ok tt)))
      (PInt 12) [] true false _ _ _ _ _ _ _ _); reflexivity.
  - rewrite !lookup_insert_ne by discriminate. apply lookup_insert_eq.
Defined.

(** *** What the returned sessions keep and gain *)

Lemma classify_preserves (W : world) (today : date) (s s' : pydict) (b : bucket) :
  classify W today s = Some (b, s') ->
  forall k, k <> "Time" -> k <> "FormattedDate" -> k <> "Day" -> k <> "category" ->
  s' !! k = s !! k.
Proof.
  intros H k H1 H2 H3 H4.
  classify_inv H; now rewrite !lookup_insert_ne by congruence.
Qed.

Lemma select_sessions_inv (W : world) (z : Z) (rows : list pydict) (session : pydict) :
  select_sessions W (PInt z) = Ok rows -> In session rows ->
  exists r, In r (tblSessionSchedule W)
            /\ schedule_StudentId1 r = Some z
            /\ session = schedule_dict r.
Proof.
  unfold select_sessions.
  destruct (engine_execute W SelectSessions) as [[]|e]; cbn [mbind result_bind bind_key];
    [|discriminate].
  intros H Hin. injection H as <-.
  apply list_elem_of_In, list_elem_of_fmap in Hin as [r [-> Hr]].
  apply list_elem_of_In, filter_In in Hr as [Hr Hkey].
  exists r. split; [exact Hr|]. split; [|reflexivity].
  unfold key_eq in Hkey. destruct (schedule_StudentId1 r) as [i|]; [|discriminate].
  apply Z.eqb_eq in Hkey. now subst.
Qed.

(** Every dict [get_sessions] returns for a student comes from a row of
    [tblSessionSchedule] whose [StudentId1] is that student: it still
    carries that identifier, the row's [TimeID] and [ScheduleDate], and every
    key other than ["Time"], ["FormattedDate"], ["Day"] and ["category"] is
    as fetched. *)
Theorem sessions_keep_store_columns (W : world) (z : Z) (out : list pydict) :
  get_sessions W (PInt z) = Ok out ->
  forall s', In s' out ->
  exists r,
    In r (tblSessionSchedule W)
    /\ schedule_StudentId1 r = Some z
    /\ s' !! "StudentId1" = Some (PInt z)
    /\ s' !! "TimeID" = Some (schedule_TimeID r)
    /\ s' !! "ScheduleDate" = Some (schedule_ScheduleDate r)
    /\ (forall k, k <> "Time" -> k <> "FormattedDate" -> k <> "Day" ->
                  k <> "category" -> s' !! k = schedule_dict r !! k).
Proof.
  intros Hout s' Hin.
  destruct (get_sessions_rows W (PInt z) out Hout) as [rows [Hrows ->]].
  apply in_aggregate in Hin as [session [b [Hsession Hc]]].
  destruct (select_sessions_inv W z rows session Hrows Hsession)
    as [r [Hr [Hz ->]]].
  pose proof (classify_preserves W _ _ _ _ Hc) as Hkeep.
  exists r. split; [exact Hr|]. split; [exact Hz|].
  split; [|split; [|split; [|exact Hkeep]]].
  - rewrite Hkeep by discriminate. unfold schedule_dict.
    rewrite !lookup_insert_ne by discriminate. rewrite lookup_insert_eq.
    now rewrite Hz.
  - rewrite Hkeep by discriminate. unfold schedule_dict.
    rewrite !lookup_insert_ne by discriminate. apply lookup_insert_eq.
  - rewrite Hkeep by discriminate. unfold schedule_dict.
    rewrite !lookup_insert_ne by discriminate. apply lookup_insert_eq.
Qed.

Lemma sessions_keep_store_columns_witness :
  exists out,
    get_sessions (sessions_world [row_past; bad_slot_other_month]) (PInt 7) = Ok out
    /\ forall s', In s' out ->
         exists r,
           In r [row_past; bad_slot_other_month]
           /\ schedule_StudentId1 r = Some 7
           /\ s' !! "StudentId1" = Some (PInt 7)
           /\ s' !! "TimeID" = Some (schedule_TimeID r)
           /\ s' !! "ScheduleDate" = Some (schedule_ScheduleDate r)
           /\ (forall k, k <> "Time" -> k <> "FormattedDate" -> k <> "Day" ->
                         k <> "category" -> s' !! k = schedule_dict r !! k).
Proof.
  exists (aggregate (sessions_world [row_past; bad_slot_other_month])
            (Date 2025 8 16) (schedule_dict <$> [row_past; bad_slot_other_month])).
  split; [reflexivity|].
  refine (sessions_keep_store_columns
    (sessions_world [row_past; bad_slot_other_month]) 7 _ _).
  reflexivity.
Defined.

(** A returned session whose time-slot lookup did not raise carries the
    looked-up label under ["Time"] (the text "Unknown" when its [TimeID] is
    [None] or 0) and the date, written YYYY-MM-DD, under ["FormattedDate"]. *)
Theorem sessions_gain_time_and_date (W : world) (student_id : pyval)
    (out : list pydict) :
  get_sessions W student_id = Ok out ->
  forall s' formatted_time,
    In s' out ->
    time_lookup W s' = Ok formatted_time ->
    s' !! "Time" = Some formatted_time
    /\ (truthy (dict_get s' "TimeID") = false -> formatted_time = PStr "Unknown")
    /\ exists d, session_date W s' = Some d
                 /\ s' !! "FormattedDate" = Some (PStr (strftime_ymd d)).
Proof.
  intros Hout s' formatted_time Hin Hft.
  destruct (get_sessions_rows W student_id out Hout) as [rows [_ ->]].
  apply in_aggregate in Hin as [session [b [_ Hc]]].
  destruct (classify_keeps _ _ _ _ _ Hc) as [Hdate Htime].
  split; [|split].
  - rewrite (time_lookup_keeps W _ _ Htime) in Hft.
    classify_inv Hc; now rewrite !lookup_insert_ne, lookup_insert_eq by discriminate.
  - intros Hfalsy. unfold time_lookup in Hft. rewrite Hfalsy in Hft. congruence.
  - rewrite (time_lookup_keeps W _ _ Htime) in Hft.
    rewrite (session_date_keeps W _ _ Hdate).
    classify_inv Hc; eexists; (split; [reflexivity|]);
      now rewrite ?lookup_insert_ne, lookup_insert_eq by discriminate.
Qed.

Lemma sessions_gain_time_and_date_witness :
  exists out,
    get_sessions (sessions_world [row_past; row_blank_day]) (PInt 7) = Ok out
    /\ forall s' formatted_time,
         In s' out ->
         time_lookup (sessions_world [row_past; row_blank_day]) s' = Ok formatted_time ->
         s' !! "Time" = Some formatted_time
         /\ (truthy (dict_get s' "TimeID") = false -> formatted_time = PStr "Unknown")
         /\ exists d,
              session_date (sessions_world [row_past; row_blank_day]) s' = Some d
              /\ s' !! "FormattedDate" = Some (PStr (strftime_ymd d)).
Proof.
  exists (aggregate (sessions_world [row_past; row_blank_day]) (Date 2025 8 16)
            (schedule_dict <$> [row_past; row_blank_day])).
  split; [reflexivity|].
  refine (sessions_gain_time_and_date
    (sessions_world [row_past; row_blank_day]) (PInt 7) _ _).
  reflexivity.
Defined.

(** *** The search endpoint *)

Lemma find_inquiry_shape (W : world) (contact_num : string) (v : pyval) :
  find_inquiry_by_contact_phone W contact_num = Ok v ->
  v = PNone
  \/ exists a b, v = PDict (<["inquiry" := a]> (<["students" := b]> ∅)).
Proof.
  unfold find_inquiry_by_contact_phone.
  destruct (engine_execute W SelectInquiry) as [[]|e]; cbn [mbind result_bind];
    [|discriminate].
  destruct (head _) as [parent|].
  - destruct (engine_execute W SelectStudents) as [[]|e]; cbn [mbind result_bind];
      [|discriminate].
    intros H. injection H as <-. right. eauto.
  - intros H. injection H as <-. now left.
Qed.

(** [search_student] never answers with success: whenever it returns
    without raising, the status is 400 (no contact number) or 404 (parent
    not found) and the body is an error message; for a parent that is found
    it raises at [inquiry["ID"]]. *)
Theorem search_student_never_succeeds (W : world) (contact_num : option string)
    (body : pydict) (status : Z) :
  search_student W contact_num = Ok (body, status) ->
  (status = 400 \/ status = 404)
  /\ exists message, body = <["error" := PStr message]> ∅.
Proof.
  unfold search_student, json_error.
  destruct contact_num as [[|c cn]|].
  - intros H. injection H as <- <-. eauto.
  - destruct (find_inquiry_by_contact_phone W (String c cn)) as [v|e] eqn:Hfind;
      cbn [mbind result_bind]; [|discriminate].
    destruct (find_inquiry_shape W _ v Hfind) as [-> | [a [b ->]]].
    + cbn. intros H. injection H as <- <-. eauto.
    + cbn [truthy].
      rewrite bool_decide_eq_false_2
        by (rewrite !dom_insert_L, dom_empty_L; set_solver).
      cbn [negb subscript]. unfold getitem.
      rewrite !lookup_insert_ne, lookup_empty by discriminate.
      discriminate.
  - intros H. injection H as <- <-. eauto.
Qed.

Lemma search_student_never_succeeds_witness :
  (404 = 400 \/ 404 = 404)
  /\ exists message,
       (<["error" := PStr "Parent not found"]> ∅ : pydict)
       = <["error" := PStr message]> ∅.
Proof.
  refine (search_student_never_succeeds
    (sample_world [] [sample_parent] sample_students [] (fun _ => failing_run))
    (Some "555-0199") _ 404 _).
  reflexivity.
Defined.

(** *** Logging in *)

Lemma truthy_insert (k : string) (v : pyval) (m : pydict) :
  truthy (PDict (<[k := v]> m)) = true.
Proof.
  cbn [truthy]. rewrite bool_decide_eq_false_2; [reflexivity|].
  rewrite dom_insert_L. set_solver.
Qed.

Section LoginProperties.

Variable py_str : pyval -> string.
Variable exn_str : exn -> string.
Variable key_order : pydict -> list string.

Lemma comprehension_ids (l : list student_row) :
  comprehension (fun s => subscript s "ID") ((fun s => PDict (student_dict s)) <$> l)
  = Ok ((fun s => PInt (student_ID s)) <$> l).
Proof.
  induction l as [|s l IH]; [reflexivity|].
  cbn [fmap list_fmap comprehension]. rewrite IH. reflexivity.
Qed.

Lemma comprehension_names (l : list student_row) :
  comprehension
    (fun s => first_name ← subscript s "FirstName";
              last_name ← subscript s "LastName";
              Ok (PStr (py_str first_name +:+ " " +:+ py_str last_name)))
    ((fun s => PDict (student_dict s)) <$> l)
  = Ok ((fun s => PStr (py_str (student_FirstName s) +:+ " "
                        +:+ py_str (student_LastName s))) <$> l).
Proof.
  induction l as [|s l IH]; [reflexivity|].
  cbn [fmap list_fmap comprehension]. rewrite IH. reflexivity.
Qed.

Lemma find_inquiry_found (W : world) (contact_num : string)
    (before after : list inquiry_row) (parent : inquiry_row) :
  engine_execute W SelectInquiry = Ok tt ->
  engine_execute W SelectStudents = Ok tt ->
  tblInquiry W = before ++ parent :: after ->
  (forall r, In r before -> phone_matches W contact_num r = false) ->
  phone_matches W contact_num parent = true ->
  find_inquiry_by_contact_phone W contact_num =
    Ok (PDict (<["inquiry" := PDict (inquiry_dict parent)]>
              (<["students" :=
                   PList ((fun s => PDict (student_dict s)) <$>
                            List.filter
                              (fun s => key_eq (student_InquiryID s)
                                          (Some (inquiry_ID parent)))
                              (tblstudents W))]> ∅))).
Proof.
  intros Hinq Hstu Htable Hbefore Hparent.
  unfold find_inquiry_by_contact_phone. rewrite Hinq. cbn [mbind result_bind].
  rewrite Htable, (head_filter_first _ before after parent Hbefore Hparent).
  rewrite Hstu. reflexivity.
Qed.

Ltac act_step :=
  cbn [run_act mbind mret act_bind act_ret attempt set_session do_flash
       result_bind result_ret subscript call_get py_iter py_len session flashed];
  unfold getitem;
  rewrite ?lookup_insert_eq;
  rewrite ?lookup_insert_ne by discriminate;
  rewrite ?lookup_insert_eq.

(** A POST of a known contact number: [login] stores in the session the
    number, the identifier and e-mail of the first matching parent, and the
    names and identifiers of that parent's students in the order of the
    store, queues the welcome message and redirects to the dashboard; with
    that session the [require_auth] decorator lets every handler run. *)
Theorem login_stores_identity (W : world) (contact_num : string)
    (before after : list inquiry_row) (parent : inquiry_row) (st : flask) :
  contact_num <> "" ->
  engine_execute W SelectInquiry = Ok tt ->
  engine_execute W SelectStudents = Ok tt ->
  tblInquiry W = before ++ parent :: after ->
  (forall r, In r before -> phone_matches W contact_num r = false) ->
  phone_matches W contact_num parent = true ->
  let students :=
    List.filter (fun s => key_eq (student_InquiryID s) (Some (inquiry_ID parent)))
      (tblstudents W) in
  let session' :=
    <["student_ids" := PList ((fun s => PInt (student_ID s)) <$> students)]>
    (<["students" :=
         PList ((fun s => PStr (py_str (student_FirstName s) +:+ " "
                                +:+ py_str (student_LastName s))) <$> students)]>
    (<["username" := inquiry_Email parent]>
    (<["inquiry_id" := PInt (inquiry_ID parent)]>
    (<["contact_number" := PStr contact_num]> (session st))))) in
  let st' :=
    flash ("Welcome back! Found "
           +:+ py_str (PInt (Z.of_nat (length students))) +:+ " student(s).")
      "success" (Flask session' (flashed st)) in
  login py_str exn_str key_order W "POST" (Some contact_num) st
    = (Redirect "index", st')
  /\ forall f, require_auth f st' = f st'.
Proof.
  intros Hne Hinq Hstu Htable Hbefore Hparent students session' st'. split.
  - unfold login. cbn [String.eqb Ascii.eqb Bool.eqb].
    destruct contact_num as [|c cn]; [congruence|].
    unfold login_try. act_step.
    rewrite (find_inquiry_found W _ before after parent Hinq Hstu Htable
               Hbefore Hparent).
    rewrite truthy_insert. act_step. unfold inquiry_dict. act_step.
    rewrite comprehension_names. act_step.
    rewrite comprehension_ids. act_step.
    rewrite length_fmap. reflexivity.
  - intros f. unfold require_auth, in_session, st', session'. cbn [session flash].
    rewrite !bool_decide_eq_true_2; [reflexivity| |].
    + rewrite !lookup_insert_ne by discriminate. rewrite lookup_insert_eq. eauto.
    + rewrite !lookup_insert_ne by discriminate. rewrite lookup_insert_eq. eauto.
Qed.

(** A POST of a contact number no parent carries, or one during which the
    lookup fails, shows the login page again with one message of category
    "danger" and leaves the session as it was. *)
Theorem login_refusal_keeps_session (W : world) (contact_num : string) (st : flask) :
  contact_num <> "" ->
  (engine_execute W SelectInquiry = Ok tt ->
   (forall r, In r (tblInquiry W) -> phone_matches W contact_num r = false) ->
   login py_str exn_str key_order W "POST" (Some contact_num) st
   = (Render "login.html" ∅,
      flash "Contact number not found. Please check your number or contact the center."
        "danger" st))
  /\ (forall e,
        find_inquiry_by_contact_phone W contact_num = Raise e ->
        login py_str exn_str key_order W "POST" (Some contact_num) st
        = (Render "login.html" ∅,
           flash ("Error during login: " +:+ exn_str e) "danger" st)).
Proof.
  intros Hne. split.
  - intros Hinq Hnone. unfold login. cbn [String.eqb Ascii.eqb Bool.eqb].
    destruct contact_num as [|c cn]; [congruence|].
    unfold login_try. act_step.
    assert (Hfind : find_inquiry_by_contact_phone W (String c cn) = Ok PNone).
    { unfold find_inquiry_by_contact_phone. rewrite Hinq. cbn [mbind result_bind].
      now rewrite (filter_none_nil _ _ Hnone). }
    rewrite Hfind. cbn [truthy]. act_step. reflexivity.
  - intros e Hfind. unfold login. cbn [String.eqb Ascii.eqb Bool.eqb].
    destruct contact_num as [|c cn]; [congruence|].
    unfold login_try. act_step. rewrite Hfind. reflexivity.
Qed.

End LoginProperties.

Lemma login_stores_identity_witness :
  (login (fun _ => "?") (fun _ => "error") (fun _ => [])
     (sample_world [] [sample_parent] sample_students [] (fun _ => failing_run))
     "POST" (Some "555-0100") (Flask ∅ [])).1
  = Redirect "index".
Proof.
  refine (f_equal fst (proj1 (login_stores_identity
    (fun _ => "?") (fun _ => "error") (fun _ => [])
    (sample_world [] [sample_parent] sample_students [] (fun _ => failing_run))
    "555-0100" [] [] sample_parent (Flask ∅ []) _ _ _ _ _ _))).
  - discriminate.
  - reflexivity.
  - reflexivity.
  - reflexivity.
  - intros r [].
  - reflexivity.
Defined.

Lemma login_refusal_keeps_session_witness :
  session
    (login (fun _ => "?") (fun _ => "error") (fun _ => [])
       (sample_world [] [sample_parent] sample_students [] (fun _ => failing_run))
       "POST" (Some "555-0199") (Flask ∅ [])).2
  = ∅.
Proof.
  refine (f_equal (fun answer => session answer.2)
    (proj1 (login_refusal_keeps_session
      (fun _ => "?") (fun _ => "error") (fun _ => [])
      (sample_world [] [sample_parent] sample_students [] (fun _ => failing_run))
      "555-0199" (Flask ∅ []) _) _ _)).
  - discriminate.
  - reflexivity.
  - intros r [<- | []]. reflexivity.
Defined.

(** *** The protected pages *)

Section PageProperties.

Variable exn_str : exn -> string.
Variable key_order : pydict -> list string.

(** [logout] redirects to the login page and leaves a session with no key
    of the application and, as only queued message, the one about the
    logout: what was queued before goes with the cleared session.  On that
    session the dashboard, the schedule and the billing page all answer with
    the redirect to the login page and the request to log in, without
    touching the store. *)
Theorem logout_closes_pages (W : world) (st : flask) :
  let st' := (logout st).2 in
  logout st
    = (Redirect "login",
       Flask ∅ [("You have been logged out successfully.", "success")])
  /\ index exn_str key_order W st'
     = (Redirect "login", flash "Please log in to access this page." "warning" st')
  /\ schedule exn_str key_order W st'
     = (Redirect "login", flash "Please log in to access this page." "warning" st')
  /\ billing exn_str key_order W st'
     = (Redirect "login", flash "Please log in to access this page." "warning" st').
Proof.
  intros st'. split; [reflexivity|].
  assert (Hout : in_session "contact_number" st' = false) by reflexivity.
  unfold index, schedule, billing, require_auth.
  rewrite Hout. cbn [negb orb]. auto.
Qed.

Lemma session_get_default_lookup (k : string) (v default : pyval) (st : flask) :
  session st !! k = Some v -> session_get_default k default st = v.
Proof. intros H. unfold session_get_default. now rewrite H. Qed.

Lemma in_session_lookup (k : string) (v : pyval) (st : flask) :
  session st !! k = Some v -> in_session k st = true.
Proof.
  intros H. unfold in_session. apply bool_decide_eq_true_2. rewrite H. eauto.
Qed.

(** For a logged-in session whose [student_ids] is a list: when fetching the
    sessions of some student raises, the dashboard is rendered with no
    session at all and an empty balance, one warning is queued, and the
    session is kept; when nothing raises, it is rendered with the sessions
    of all the students, in the order of the list, and with the balance of
    the parent. *)
Theorem index_falls_back_to_empty (W : world) (st : flask)
    (contact_number inquiry_id : pyval) (student_ids : list pyval) :
  session st !! "contact_number" = Some contact_number ->
  session st !! "inquiry_id" = Some inquiry_id ->
  session st !! "student_ids" = Some (PList student_ids) ->
  (forall e,
     collect_sessions W student_ids = Raise e ->
     index exn_str key_order W st
     = (Render "index.html"
          (<["username" := session_get_default "username" PNone st]>
          (<["students" := session_get_default "students" (PList []) st]>
          (<["sessions" := PList []]>
          (<["balance_data" := PDict ∅]> ∅)))),
        flash ("Error loading dashboard: " +:+ exn_str e) "warning" st))
  /\ (forall all_sessions balance_info,
        collect_sessions W student_ids = Ok all_sessions ->
        truthy inquiry_id = true ->
        get_hours_balance W inquiry_id = Ok balance_info ->
        index exn_str key_order W st
        = (Render "index.html"
             (<["username" := session_get_default "username" PNone st]>
             (<["students" := session_get_default "students" (PList []) st]>
             (<["sessions" := PList (PDict <$> all_sessions)]>
             (<["balance_data" := PDict balance_info]> ∅)))),
           st)).
Proof.
  intros Hcn Hid Hids.
  assert (Hauth : negb (in_session "contact_number" st)
                  || negb (in_session "inquiry_id" st) = false).
  { now rewrite (in_session_lookup _ _ _ Hcn), (in_session_lookup _ _ _ Hid). }
  split.
  - intros e Hraise. unfold index, require_auth. rewrite Hauth.
    unfold index_try. cbn [run_act]. rewrite Hauth.
    rewrite (session_get_default_lookup "student_ids" _ _ _ Hids).
    cbn [py_iter mbind result_bind]. rewrite Hraise. reflexivity.
  - intros all_sessions balance_info Hall Htruthy Hbalance.
    unfold index, require_auth. rewrite Hauth.
    unfold index_try. cbn [run_act]. rewrite Hauth.
    rewrite (session_get_default_lookup "student_ids" _ _ _ Hids).
    rewrite (session_get_default_lookup "inquiry_id" _ _ _ Hid).
    cbn [py_iter mbind result_bind]. rewrite Hall. cbn [mbind result_bind].
    rewrite Htruthy, Hbalance. reflexivity.
Qed.

End PageProperties.

Lemma logout_closes_pages_witness :
  index (fun _ => "error") (fun _ => [])
    (sample_world [] [] [] [] (fun _ => failing_run))
    (logout (Flask (<["contact_number" := PStr "555-0100"]> ∅)
       [("Contact number is required.", "danger")])).2
  = (Redirect "login",
     flash "Please log in to access this page." "warning"
       (logout (Flask (<["contact_number" := PStr "555-0100"]> ∅)
       [("Contact number is required.", "danger")])).2).
Proof.
  exact (proj1 (proj2 (logout_closes_pages (fun _ => "error") (fun _ => [])
    (sample_world [] [] [] [] (fun _ => failing_run))
    (Flask (<["contact_number" := PStr "555-0100"]> ∅)
       [("Contact number is required.", "danger")])))).
Defined.

Lemma index_falls_back_to_empty_witness :
  index (fun _ => "error") (fun _ => []) refusing_world logged_in
  = (Render "index.html"
       (<["username" := session_get_default "username" PNone logged_in]>
       (<["students" := session_get_default "students" (PList []) logged_in]>
       (<["sessions" := PList []]>
       (<["balance_data" := PDict ∅]> ∅)))),
     flash ("Error loading dashboard: " +:+ "error") "warning" logged_in).
Proof.
  refine (proj1 (index_falls_back_to_empty (fun _ => "error") (fun _ => [])
    refusing_world logged_in (PStr "555-0100") (PInt 12) [PInt 7] _ _ _)
    DatabaseError _).
  - reflexivity.
  - reflexivity.
  - reflexivity.
  - reflexivity.
Defined.

(** *** The billing table *)

Lemma get_hours_balance_shape (W : world) (inquiry_id : pyval) (d : pydict) :
  get_hours_balance W inquiry_id = Ok d ->
  exists data extra remaining,
    d = <["balance" := PDict data]>
        (<["extra" := PList extra]>
        (<["remaining_hours" := PFloat remaining]> ∅)).
Proof.
  unfold get_hours_balance.
  destruct (raw_connection _) as [[]|e]; cbn [mbind result_bind]; [|discriminate].
  destruct (balance_finally _) as [[]|e]; cbn [mbind result_bind]; [|discriminate].
  intros H. injection H as <-.
  destruct (balance_try W _) as [d|e] eqn:Htry.
  - exact (balance_try_shape W _ d Htry).
  - unfold empty_balance. eauto.
Qed.

(** For a logged-in session whose [students] is a list and whose inquiry
    identifier is true in a condition: when [get_hours_balance] returns, the
    billing page gets one line per student, in the order of the list, every
    line showing the same remaining hours, those of the returned balance
    (0.0 after a failed stored procedure), and ["N/A"] as last payment. *)
Theorem billing_one_line_per_student (exn_str : exn -> string)
    (key_order : pydict -> list string) (W : world) (st : flask)
    (contact_number inquiry_id : pyval) (students : list pyval) (d : pydict) :
  session st !! "contact_number" = Some contact_number ->
  session st !! "inquiry_id" = Some inquiry_id ->
  session st !! "students" = Some (PList students) ->
  truthy inquiry_id = true ->
  get_hours_balance W inquiry_id = Ok d ->
  exists remaining,
    d !! "remaining_hours" = Some (PFloat remaining)
    /\ billing exn_str key_order W st
       = (Render "billing.html"
            (<["balance_data" := PDict d]>
            (<["balance_table_data" :=
                 PList (billing_row (PFloat remaining) <$> students)]>
            (<["students" := PList students]>
            (<["username" := session_get_default "username" PNone st]> ∅)))),
          st)
    /\ length (billing_row (PFloat remaining) <$> students) = length students.
Proof.
  intros Hcn Hid Hstudents Htruthy Hbalance.
  destruct (get_hours_balance_shape W inquiry_id d Hbalance)
    as [data [extra [remaining ->]]].
  exists remaining. split; [|split; [|apply length_fmap]].
  { rewrite !lookup_insert_ne by discriminate. apply lookup_insert_eq. }
  unfold billing, require_auth.
  rewrite (in_session_lookup _ _ _ Hcn), (in_session_lookup _ _ _ Hid).
  cbn [negb orb].
  rewrite (session_get_default_lookup "inquiry_id" _ _ _ Hid).
  rewrite (session_get_default_lookup "students" _ _ _ Hstudents).
  rewrite Htruthy, Hbalance. cbn [mbind result_bind].
  unfold billing_table. rewrite truthy_insert.
  rewrite !lookup_insert_ne by discriminate. rewrite lookup_insert_eq.
  destruct students as [|student students]; reflexivity.
Qed.

Lemma billing_one_line_per_student_witness :
  exists remaining,
    empty_balance !! "remaining_hours" = Some (PFloat remaining)
    /\ billing (fun _ => "error") (fun _ => [])
         (sample_world [] [] [] [] (fun _ => failing_run)) logged_in
       = (Render "billing.html"
            (<["balance_data" := PDict empty_balance]>
            (<["balance_table_data" :=
                 PList (billing_row (PFloat remaining) <$> [PStr "Ada Byron"])]>
            (<["students" := PList [PStr "Ada Byron"]]>
            (<["username" := session_get_default "username" PNone logged_in]> ∅)))),
          logged_in)
    /\ length (billing_row (PFloat remaining) <$> [PStr "Ada Byron"]) = 1%nat.
Proof.
  refine (billing_one_line_per_student (fun _ => "error") (fun _ => [])
    (sample_world [] [] [] [] (fun _ => failing_run)) logged_in
    (PStr "555-0100") (PInt 12) [PStr "Ada Byron"] empty_balance _ _ _ _ _).
  - reflexivity.
  - reflexivity.
  - reflexivity.
  - reflexivity.
  - reflexivity.
Defined.

(** *** The connection URL *)

Lemma string_chars_app (a b : string) :
  string_chars (a +:+ b) = string_chars a ++ string_chars b.
Proof.
  induction a as [|c a IH]; [reflexivity|].
  change (String c a +:+ b) with (String c (a +:+ b)). cbn. now rewrite IH.
Qed.

Lemma hex_digit_safe (n : Z) : 0 <= n < 16 -> always_safe (hex_digit n) = true.
Proof.
  intros Hn. destruct (in_seq_of_Z n 16 Hn) as [Hin Heq].
  assert (Hall : forallb (fun k => always_safe (hex_digit (Z.of_nat k))) (seq 0 16)
                 = true) by (vm_compute; reflexivity).
  rewrite forallb_forall in Hall. specialize (Hall _ Hin).
  now rewrite Heq in Hall.
Qed.

Lemma percent_byte_chars (byte : Z) (c : ascii) :
  0 <= byte < 256 -> In c (string_chars (percent_byte byte)) ->
  always_safe c = true \/ c = "%"%char.
Proof.
  intros Hbyte. cbn. intros [<- | [<- | [<- | []]]]; [now right | left | left].
  - apply hex_digit_safe. split; [apply Z.div_pos; lia|].
    apply Z.div_lt_upper_bound; lia.
  - apply hex_digit_safe. apply Z.mod_pos_bound. lia.
Qed.

Lemma code_range (c : ascii) : 0 <= code c < 256.
Proof.
  unfold code. pose proof (N_ascii_bounded c) as H. lia.
Qed.

(** The password written into the connection URL consists of letters,
    digits and the characters [_ . - ~ + %] only, so it holds none of the
    delimiters [:], [@] and [/] of the URL and no space; a password of
    letters and digits is written as it is. *)
Theorem quote_plus_only_safe_characters (password : string) :
  (forall c, In c (string_chars (quote_plus password)) ->
     always_safe c = true \/ c = "+"%char \/ c = "%"%char)
  /\ (forall c, In c (string_chars (quote_plus password)) ->
        c <> ":"%char /\ c <> "@"%char /\ c <> "/"%char /\ c <> " "%char)
  /\ (forallb always_safe (string_chars password) = true ->
      quote_plus password = password).
Proof.
  assert (Hsafe : forall c, In c (string_chars (quote_plus password)) ->
            always_safe c = true \/ c = "+"%char \/ c = "%"%char).
  { induction password as [|x password IH]; [intros c []|].
    intros c. cbn [quote_plus]. rewrite string_chars_app, in_app_iff.
    intros [Hc | Hc]; [|now apply IH].
    destruct (always_safe x) eqn:Hx.
    - cbn in Hc. destruct Hc as [<- | []]. now left.
    - destruct (Ascii.eqb x " ").
      + cbn in Hc. destruct Hc as [<- | []]. right. now left.
      + pose proof (code_range x) as Hcode. unfold utf8_bytes in Hc.
        destruct (code x <? 128) eqn:Hlow; cbn [fold_right] in Hc;
          rewrite ?string_chars_app, ?in_app_iff in Hc.
        * destruct Hc as [Hc | []].
          apply percent_byte_chars in Hc; [tauto | lia].
        * apply Z.ltb_ge in Hlow.
          assert (H1 : 0 <= 192 + code x / 64 < 256).
          { assert (code x / 64 < 4) by (apply Z.div_lt_upper_bound; lia).
            assert (0 <= code x / 64) by (apply Z.div_pos; lia). lia. }
          assert (H2 : 0 <= 128 + code x mod 64 < 256).
          { pose proof (Z.mod_pos_bound (code x) 64). lia. }
          destruct Hc as [Hc | [Hc | []]];
            apply percent_byte_chars in Hc; tauto. }
  split; [exact Hsafe|]. split.
  - intros c Hc. destruct (Hsafe c Hc) as [H | [-> | ->]].
    + repeat split; intros ->; discriminate.
    + repeat split; discriminate.
    + repeat split; discriminate.
  - clear Hsafe. induction password as [|x password IH]; [reflexivity|].
    cbn [string_chars forallb quote_plus]. intros H.
    apply andb_prop in H as [Hx Hrest]. rewrite Hx, (IH Hrest). reflexivity.
Qed.

Lemma quote_plus_only_safe_characters_witness : quote_plus "s3cret" = "s3cret".
Proof.
  refine (proj2 (proj2 (quote_plus_only_safe_characters "s3cret")) _).
  reflexivity.
Defined.

(** *** Other students' rows *)

(** What [get_sessions] answers for a student does not depend on the rows
    of [tblSessionSchedule] that belong to another student or to none. *)
Theorem sessions_ignore_other_students (W : world) (z : Z)
    (before after : list schedule_row) (r : schedule_row) :
  schedule_StudentId1 r <> Some z ->
  get_sessions (with_schedule W (before ++ r :: after)) (PInt z)
  = get_sessions (with_schedule W (before ++ after)) (PInt z).
Proof.
  intros Hother. unfold get_sessions, select_sessions.
  cbn [engine_execute tblSessionSchedule now with_schedule].
  destruct (engine_execute W SelectSessions) as [[]|e]; [|reflexivity].
  cbn [mbind result_bind bind_key].
  rewrite !List.filter_app. cbn [List.filter].
  assert (Hkey : key_eq (schedule_StudentId1 r) (Some z) = false).
  { unfold key_eq. destruct (schedule_StudentId1 r) as [i|]; [|reflexivity].
    apply Z.eqb_neq. congruence. }
  now rewrite Hkey.
Qed.

Lemma sessions_ignore_other_students_witness :
  get_sessions
    (sessions_world [row_past; ScheduleRow (PStr "Monday") (PInt 1) PNone (Some 8)])
    (PInt 7)
  = get_sessions (sessions_world [row_past]) (PInt 7).
Proof.
  refine (sessions_ignore_other_students (sessions_world []) 7 [row_past] []
            (ScheduleRow (PStr "Monday") (PInt 1) PNone (Some 8)) _).
  discriminate.
Defined.
